(** * install-diff: a shallow embedding of [index.js]

    The script reads a manifest ([package.json]) and a lockfile
    ([package-lock.json]), asks the registry (through [npm show]) for the
    installable and the latest version of every declared dependency, and
    prints a table of the dependencies whose versions drift.

    What is embedded, and how:
    - parsed JSON data is a [JS.value]; reading a property finds the own
      properties of the data and the members the runtime provides through
      the prototype chain, and throws on [undefined] and [null]
      ([JS.get]); the tables of the runtime are an interface ([JS.Runtime]);
    - the manifest's three dependency maps are insertion-ordered association
      lists of strings (their values are interpolated into the [npm show]
      command and into the cells, so they are kept as strings);
    - [console.warn] is a writer effect ([Console]): every function that
      warns returns its value together with the lines it wrote;
    - [execSync] and [JSON.parse] are the two fields of an environment
      [Env]; a thrown exception is the [Failure] constructor, resp. [None];
      a [TypeError] of a property read is [JS.Throw];
    - the [semver] package is an interface ([Semver]) with the laws the
      proofs rely on, and [Reference] gives an executable instance for
      release versions;
    - [chalk] styles are kept symbolic: a cell is a list of styled segments.

    Left out: the command line and the two existence checks (lines 21-54),
    the spinner, and the rendering of the table to text; [compareVersions]
    returns the rows it would print. *)

From Stdlib Require Import String Ascii List Bool ZArith Lia DecimalString.
Import ListNotations.
Local Open Scope string_scope.
Local Open Scope list_scope.

Local Set Warnings "-register-all".

Infix "+++" := String.append (at level 60, right associativity).

(** ** JavaScript values *)

Module JS.

(** The values [JSON.parse] produces, [undefined] for a missing property,
    and [Native] for what only the runtime has: a built-in function or
    object, such as the members of [Object.prototype], by name.  Numbers
    are only ever tested for truthiness or rejected by [semver.valid], so
    integral values are enough. *)
Inductive value : Type :=
| undefined
| null
| Bool (b : bool)
| Num (n : Z)
| Str (s : string)
| Arr (items : list value)
| Obj (fields : list (string * value))
| Native (name : string).

(** ToBoolean. *)
Definition truthy (v : value) : bool :=
  match v with
  | undefined | null => false
  | Bool b => b
  | Num n => negb (Z.eqb n 0)
  | Str s => negb (String.eqb s EmptyString)
  | Arr _ | Obj _ | Native _ => true
  end.

Fixpoint lookup {A : Type} (k : string) (o : list (string * A)) : option A :=
  match o with
  | [] => None
  | (k', v) :: rest => if String.eqb k' k then Some v else lookup k rest
  end.

(** What evaluating an expression gives: a value, or a thrown error with
    its message. *)
Inductive Result : Type :=
| Ok (v : value)
| Throw (message : string).

Definition bind (r : Result) (k : value -> Result) : Result :=
  match r with
  | Ok v => k v
  | Throw message => Throw message
  end.

(** [a && b]: [b] is evaluated only when [a] is truthy. *)
Definition and_ (a b : Result) : Result :=
  bind a (fun va => if truthy va then b else Ok va).

(** [a || b] on values. *)
Definition or_ (a b : value) : value := if truthy a then a else b.

Definition is_digit (c : ascii) : bool :=
  let n := nat_of_ascii c in
  Nat.leb 48 n && Nat.leb n 57.

Definition digits_value (ds : list ascii) : N :=
  fold_left (fun n c => (10 * n + (N.of_nat (nat_of_ascii c) - 48))%N) ds 0%N.

(** An array index: the canonical decimal text of an integer below
    [2^32 - 1]. *)
Definition array_index (k : string) : option N :=
  match list_ascii_of_string k with
  | [] => None
  | d :: rest =>
      if forallb is_digit (d :: rest)
         && (negb (Ascii.eqb d "0"%char) || Nat.eqb (length rest) 0)
         && (digits_value (d :: rest) <? 4294967295)%N
      then Some (digits_value (d :: rest))
      else None
  end.

(** The own properties of parsed JSON data: the fields of an object, the
    elements and the [length] of an array, the characters and the [length]
    of a string. *)
Definition own (v : value) (k : string) : option value :=
  match v with
  | Obj fields => lookup k fields
  | Arr items =>
      if String.eqb k "length" then Some (Num (Z.of_nat (length items)))
      else match array_index k with
           | Some i =>
               if (i <? N.of_nat (length items))%N
               then nth_error items (N.to_nat i)
               else None
           | None => None
           end
  | Str s =>
      if String.eqb k "length" then Some (Num (Z.of_nat (String.length s)))
      else match array_index k with
           | Some i =>
               if (i <? N.of_nat (String.length s))%N
               then option_map (fun c => Str (String c EmptyString))
                               (String.get (N.to_nat i) s)
               else None
           | None => None
           end
  | _ => None
  end.

(** What the script takes from the JavaScript runtime.  [builtin v k] is
    the property [k] that [v] has without owning it as data: a member
    found on the prototype chain ([constructor], [toString], ...), or a
    property of a built-in function.  [stringOf v] is [String(v)] for a
    value that is not a string, and [typeError v k] is the message of the
    [TypeError] that reading [k] of [undefined] or [null] throws.  The laws:
    the four keys that the script reads by name are not built-in members,
    and a built-in member (a function, a prototype, a name, a length) is
    not data with a [version] of its own. *)
Class Runtime : Type := {
  builtin : value -> string -> option value;
  stringOf : value -> string;
  typeError : value -> string -> string;

  builtin_packages : forall v, builtin v "packages" = None;
  builtin_dependencies : forall v, builtin v "dependencies" = None;
  builtin_version : forall v, builtin v "version" = None;
  builtin_node_modules : forall v name,
    builtin v ("node_modules/" +++ name) = None;
  builtin_no_version : forall v k b,
    builtin v k = Some b -> own b "version" = None
}.

(** An own property, or [undefined]. *)
Definition field (v : value) (k : string) : value :=
  match own v k with
  | Some x => x
  | None => undefined
  end.

(** [v[k]] for a [v] that is not [undefined] or [null]: an own property,
    else a built-in member, else [undefined]. *)
Definition member {runtime : Runtime} (v : value) (k : string) : value :=
  match own v k with
  | Some x => x
  | None => match builtin v k with Some b => b | None => undefined end
  end.

(** [v[k]]: reading a property of [undefined] or [null] throws. *)
Definition get {runtime : Runtime} (v : value) (k : string) : Result :=
  match v with
  | undefined | null => Throw (typeError v k)
  | _ => Ok (member v k)
  end.

(** [`${v}`]. *)
Definition toString {runtime : Runtime} (v : value) : string :=
  match v with
  | Str s => s
  | _ => stringOf v
  end.

(** [v === s] for a string [s]. *)
Definition strict_eq_str (v : value) (s : string) : bool :=
  match v with
  | Str t => String.eqb t s
  | _ => false
  end.

(** [Array.isArray(v) ? v : [v]]. *)
Definition as_array (v : value) : list value :=
  match v with
  | Arr items => items
  | _ => [v]
  end.

(** The strings among a list of values, in order. *)
Fixpoint strings (l : list value) : list string :=
  match l with
  | [] => []
  | Str s :: rest => s :: strings rest
  | _ :: rest => strings rest
  end.

End JS.

(** A string is a value, and a value is the outcome of an expression that
    does not throw. *)
Coercion JS.Str : string >-> JS.value.
Coercion JS.Ok : JS.value >-> JS.Result.

(** ** Strings: [trim], [split("\n")] and the quoted-text pattern *)

Module Text.

Definition newline : ascii := "010"%char.
Definition carriage_return : ascii := "013"%char.
Definition double_quote : ascii := "034"%char.
Definition single_quote : ascii := "039"%char.

(** The ASCII part of JavaScript's white space. *)
Definition is_space (c : ascii) : bool :=
  let n := nat_of_ascii c in
  Nat.eqb n 32 || (Nat.leb 9 n && Nat.leb n 13).

Definition is_digit (c : ascii) : bool :=
  let n := nat_of_ascii c in
  Nat.leb 48 n && Nat.leb n 57.

Fixpoint drop_spaces (l : list ascii) : list ascii :=
  match l with
  | c :: rest => if is_space c then drop_spaces rest else l
  | [] => []
  end.

(** [s.trim()]. *)
Definition trim (s : string) : string :=
  string_of_list_ascii
    (rev (drop_spaces (rev (drop_spaces (list_ascii_of_string s))))).

(** [s.split("\n")]: always at least one piece. *)
Fixpoint split_lines_aux (cur : list ascii) (l : list ascii) : list string :=
  match l with
  | [] => [string_of_list_ascii (rev cur)]
  | c :: rest =>
      if Ascii.eqb c newline
      then string_of_list_ascii (rev cur) :: split_lines_aux [] rest
      else split_lines_aux (c :: cur) rest
  end.

Definition split_lines (s : string) : list string :=
  split_lines_aux [] (list_ascii_of_string s).

Definition is_quote (c : ascii) : bool :=
  Ascii.eqb c double_quote || Ascii.eqb c single_quote.

(** [.] matches everything but a line terminator. *)
Definition is_line_terminator (c : ascii) : bool :=
  Ascii.eqb c newline || Ascii.eqb c carriage_return.

(** After an opening quote and the captured characters [acc] (reversed, at
    least one): the lazy [.+?] grows until the next quote. *)
Fixpoint close_quote (acc : list ascii) (l : list ascii) : option (list ascii) :=
  match l with
  | [] => None
  | c :: rest =>
      if is_quote c then Some (rev acc)
      else if is_line_terminator c then None
      else close_quote (c :: acc) rest
  end.

(** The first group of the leftmost match of [/['"](.+?)['"]/]. *)
Fixpoint quoted_aux (l : list ascii) : option (list ascii) :=
  match l with
  | [] => None
  | c :: rest =>
      if is_quote c then
        match rest with
        | d :: rest' =>
            if is_line_terminator d then quoted_aux rest
            else match close_quote [d] rest' with
                 | Some captured => Some captured
                 | None => quoted_aux rest
                 end
        | [] => None
        end
      else quoted_aux rest
  end.

(** [line.match(/['"](.+?)['"]/)?.[1]]. *)
Definition quoted (line : string) : option string :=
  option_map string_of_list_ascii (quoted_aux (list_ascii_of_string line)).

(** [.map(quoted).filter(Boolean)]: a capture is never empty, so only the
    lines without a match are dropped. *)
Fixpoint quoted_lines (lines : list string) : list string :=
  match lines with
  | [] => []
  | line :: rest =>
      match quoted line with
      | Some s => s :: quoted_lines rest
      | None => quoted_lines rest
      end
  end.

End Text.

(** ** The console: [console.warn] as a writer effect *)

Definition Console (A : Type) : Type := (A * list string)%type.

Definition ret {A : Type} (a : A) : Console A := (a, []).

Definition bind {A B : Type} (m : Console A) (k : A -> Console B) : Console B :=
  let (a, w) := m in
  let (b, w') := k a in
  (b, w ++ w').

Definition warn (line : string) : Console unit := (tt, [line]).

Notation "x <- m ;; k" := (bind m (fun x => k))
  (at level 61, m at next level, right associativity).
Notation "m ;;; k" := (bind m (fun _ => k))
  (at level 61, right associativity).

(** ** The [semver] package as an interface *)

(** [valid s] is the normalised version, or [None] for [null];
    [maxSatisfying] is [None] for [null] (no candidate satisfies the range,
    or the range does not parse); [diff] is [None] for [null].  The laws
    are those of the package that the script depends on. *)
Class Semver : Type := {
  valid : string -> option string;
  major : string -> Z;
  diff : string -> string -> option string;
  satisfies : string -> string -> bool;
  compare : string -> string -> comparison;
  maxSatisfying : list string -> string -> option string;

  (** A normalised version is never the empty string. *)
  valid_nonempty : forall s n, valid s = Some n -> n <> EmptyString;
  (** A version has digits in it. *)
  valid_digit : forall s n, valid s = Some n ->
    existsb Text.is_digit (list_ascii_of_string s) = true;
  (** [maxSatisfying] returns one of the candidates, which satisfies the
      range and is not below any other candidate that satisfies it... *)
  maxSatisfying_in : forall vs r v, maxSatisfying vs r = Some v -> In v vs;
  maxSatisfying_satisfies : forall vs r v,
    maxSatisfying vs r = Some v -> satisfies v r = true;
  maxSatisfying_max : forall vs r v w,
    maxSatisfying vs r = Some v -> In w vs -> satisfies w r = true ->
    compare w v <> Gt;
  (** ... and [null] only when no candidate satisfies the range. *)
  maxSatisfying_none : forall vs r w,
    maxSatisfying vs r = None -> In w vs -> satisfies w r = false
}.

(** ** The environment: the registry and the JSON parser *)

(** What [execSync(cmd, { timeout })] does: it returns what the command
    wrote, or throws (non-zero exit, timeout) an error with a message. *)
Inductive ExecResult : Type :=
| Output (stdout : string)
| Failure (message : string).

Record Env : Type := {
  execSync : string -> ExecResult;
  (** [JSON.parse]: [None] when it throws. *)
  JSON_parse : string -> option JS.value
}.

(** ** The manifest *)

(** A JavaScript object whose values are strings: its own properties in
    enumeration order, each key once.  (Keys that are array indices, which
    JavaScript enumerates before the others, are not singled out; they
    would only change the order in which the loop visits the entries.) *)
Definition StrMap : Type := list (string * string).

(** [package.json]: each of the three maps may be missing. *)
Record Manifest : Type := {
  dependencies : option StrMap;
  devDependencies : option StrMap;
  peerDependencies : option StrMap
}.

(** The object that [JSON.parse] made of a map. *)
Definition objectOf (m : StrMap) : JS.value :=
  JS.Obj (map (fun kv => (fst kv, JS.Str (snd kv))) m).

(** [o?.[k]]: [undefined] when the map is missing, else the property [k] of
    the object, an own range or a member that it inherits. *)
Definition opt_get {runtime : JS.Runtime} (o : option StrMap) (k : string)
  : JS.value :=
  match o with
  | Some m => JS.member (objectOf m) k
  | None => JS.undefined
  end.

(** [o[k] = v]: an existing key keeps its place, a new key goes last. *)
Fixpoint assign (k v : string) (o : StrMap) : StrMap :=
  match o with
  | [] => [(k, v)]
  | (k', v') :: rest =>
      if String.eqb k' k then (k', v) :: rest else (k', v') :: assign k v rest
  end.

(** [{ ...acc, ...src }], with [...undefined] spreading nothing. *)
Definition spread (acc : StrMap) (src : option StrMap) : StrMap :=
  match src with
  | Some m => fold_left (fun o kv => assign (fst kv) (snd kv) o) m acc
  | None => acc
  end.

(** The [dependencies] object [compareVersions] builds (lines 126-130). *)
Definition mergedDependencies (packageJson : Manifest) : StrMap :=
  spread (spread (spread [] (dependencies packageJson))
                 (devDependencies packageJson))
         (peerDependencies packageJson).

(** ** The table *)

Inductive Style : Type :=
  green | yellow | red | cyan | italic_gray | blue_bold.

(** A cell is the concatenation of styled pieces of text. *)
Definition Cell : Type := list (Style * string).

Definition chalk (st : Style) (text : string) : Cell := [(st, text)].

Record Row : Type := {
  rowName : string;
  rowType : Cell;
  rowInstalled : Cell;
  rowInstallable : Cell;
  rowLatest : Cell
}.

(** What [table.push] receives: five cells, or one cell with a [colSpan]. *)
Inductive TableRow : Type :=
| DataRow (r : Row)
| SpanRow (content : Cell) (colSpan : nat) (hAlign : string).

(** The head of the table (lines 133-139): its five columns. *)
Definition tableHead : list Cell :=
  [chalk blue_bold "Package Name";
   chalk blue_bold "Dependency Type";
   chalk blue_bold "Installed (npm ci)";
   chalk blue_bold "Installable (npm i)";
   chalk blue_bold "Latest Version"].

(** The row pushed when the table is empty (lines 240-248). *)
Definition noDifferences : TableRow :=
  SpanRow
    (chalk green "No installable packages found. `npm ci` and `npm i` are the same.")
    5 "center".

(** ** The script *)

Section Script.

Context {semver : Semver} {runtime : JS.Runtime}.
Variable env : Env.

(** [semver.valid(v)]: [null] for everything that is not a string. *)
Definition semver_valid (v : JS.value) : JS.value :=
  match v with
  | JS.Str s => match valid s with Some n => JS.Str n | None => JS.null end
  | _ => JS.null
  end.

(** The truth value of [semver.valid(v)]. *)
Definition isValid (v : JS.value) : bool := JS.truthy (semver_valid v).

Definition npmShow (packageName versionRange : string) : string :=
  "npm show " +++ packageName +++ "@" +++ versionRange +++ " version --json".

(** Lines 64-76: the answer as an array. *)
Definition parseVersions (output : string) : list JS.value :=
  let versions :=
    match JSON_parse env output with
    | Some v => v
    | None =>
        JS.Arr (map JS.Str (Text.quoted_lines (Text.split_lines output)))
    end in
  JS.as_array versions.

(** Line 78; what [filter] keeps are strings. *)
Definition validVersionsOf (output : string) : list string :=
  JS.strings (filter isValid (parseVersions output)).

(** [semver.maxSatisfying(validVersions, versionRange)]: with a range
    that is not a string, [new Range] throws inside [maxSatisfying], which
    answers [null]. *)
Definition semver_maxSatisfying (validVersions : list string)
  (versionRange : JS.value) : option string :=
  match versionRange with
  | JS.Str range => maxSatisfying validVersions range
  | _ => None
  end.

(** Lines 85-88: [semver.maxSatisfying(...) || validVersions[length - 1]]. *)
Definition pickVersion (validVersions : list string) (versionRange : JS.value)
  : string :=
  match semver_maxSatisfying validVersions versionRange with
  | Some v =>
      if String.eqb v EmptyString then last validVersions EmptyString else v
  | None => last validVersions EmptyString
  end.

(** Lines 56-93.  The range is interpolated into the command; it is a
    string, or what a lookup in the manifest found otherwise. *)
Definition getLatestVersion (packageName : string) (versionRange : JS.value)
  : Console string :=
  match execSync env (npmShow packageName (JS.toString versionRange)) with
  | Output stdout =>
      let output := Text.trim stdout in
      let validVersions := validVersionsOf output in
      if Nat.eqb (length validVersions) 0 then
        warn ("No valid versions found for " +++ packageName) ;;;
        ret "Unable to determine"
      else ret (pickVersion validVersions versionRange)
  | Failure message =>
      warn ("Error fetching version for " +++ packageName +++ ": " +++ message) ;;;
      ret "Error fetching version"
  end.

(** Lines 95-105. *)
Definition getInstallableVersion (packageName : string) (packageJson : Manifest)
  : Console string :=
  let versionRange :=
    JS.or_ (JS.or_ (opt_get (dependencies packageJson) packageName)
                   (opt_get (devDependencies packageJson) packageName))
           (opt_get (peerDependencies packageJson) packageName) in
  if negb (JS.truthy versionRange) then
    warn ("Package " +++ packageName +++ " not found in package.json") ;;;
    ret "Not found in package.json"
  else getLatestVersion packageName versionRange.

(** [o.a[b]]. *)
Definition get2 (o : JS.value) (a b : string) : JS.Result :=
  JS.bind (JS.get o a) (fun x => JS.get x b).

(** [o.a[b].version]. *)
Definition versionOf (o : JS.value) (a b : string) : JS.Result :=
  JS.bind (get2 o a b) (fun entry => JS.get entry "version").

(** Lines 107-123.  Each property read may throw; [&&] keeps the second
    read from happening when the first gives a falsy value. *)
Definition getInstalledVersion (packageName : string) (lockDependencies : JS.value)
  : JS.Result :=
  JS.bind (JS.and_ (JS.get lockDependencies "packages")
                   (get2 lockDependencies "packages"
                         ("node_modules/" +++ packageName)))
    (fun nested =>
       if JS.truthy nested
       then versionOf lockDependencies "packages" ("node_modules/" +++ packageName)
       else
         JS.bind (JS.and_ (JS.get lockDependencies "dependencies")
                          (get2 lockDependencies "dependencies" packageName))
           (fun legacy =>
              if JS.truthy legacy
              then versionOf lockDependencies "dependencies" packageName
              else JS.Ok (JS.Str "Not installed"))).

(** Lines 150-156. *)
Definition dependencyTypeOf (packageJson : Manifest) (packageName : string)
  : string :=
  if JS.truthy (opt_get (dependencies packageJson) packageName)
  then "dependencies"
  else if JS.truthy (opt_get (devDependencies packageJson) packageName)
  then "devDependencies"
  else if JS.truthy (opt_get (peerDependencies packageJson) packageName)
  then "peerDependencies"
  else "unknown".

(** Lines 185-188. *)
Definition hasInstalledChanged (installed installable : string) : bool :=
  negb (String.eqb installed installable).

Definition hasLatestChanged (installed latest : string) : bool :=
  negb (String.eqb installed latest).

Definition isMajorChange (installed latest : string) : bool :=
  negb (Z.eqb (major installed) (major latest)).

(** [` (${diff})`] in italic gray; a [null] prints as [null]. *)
Definition diffAnnotation (d : option string) : Cell :=
  chalk italic_gray
    (" (" +++ match d with Some kind => kind | None => "null" end +++ ")").

Definition rangeAnnotation (versionRange : string) : Cell :=
  chalk italic_gray (" (" +++ versionRange +++ ")").

(** Lines 190-223: the installed, installable and latest cells. *)
Definition colorize (installed installable latest versionRange : string)
  : Cell * Cell * Cell :=
  if hasLatestChanged installed latest then
    let severity := if isMajorChange installed latest then red else yellow in
    (chalk severity installed,
     chalk yellow installable ++ rangeAnnotation versionRange,
     chalk severity latest ++ diffAnnotation (diff installed latest))
  else if hasInstalledChanged installed installable then
    (chalk yellow installed,
     (chalk yellow installable ++ rangeAnnotation versionRange)
       ++ diffAnnotation (diff installed installable),
     chalk green latest)
  else
    (chalk green installed,
     chalk green installable ++ rangeAnnotation versionRange,
     chalk green latest).

Definition makeRow (packageName dependencyType : string)
  (installed installable latest versionRange : string) : Row :=
  let '(cInstalled, cInstallable, cLatest) :=
    colorize installed installable latest versionRange in
  {| rowName := packageName;
     rowType := chalk cyan dependencyType;
     rowInstalled := cInstalled;
     rowInstallable := cInstallable;
     rowLatest := cLatest |}.

(** Line 225. *)
Definition included (all : bool) (installed installable latest : string) : bool :=
  all || hasLatestChanged installed latest
      || hasInstalledChanged installed installable.

Definition unableToDetermine : string := "Unable to determine".

(** The body of the loop (lines 148-237) for one entry of the merged
    object.  Only the reads of [getInstalledVersion] can throw; the handler
    of lines 234-237 then warns and goes on to the next package. *)
Definition processPackage (all : bool) (packageJson : Manifest)
  (packageLock : JS.value) (table : list TableRow) (entry : string * string)
  : Console (list TableRow) :=
  let (packageName, versionRange) := entry in
  let dependencyType := dependencyTypeOf packageJson packageName in
  match getInstalledVersion packageName packageLock with
  | JS.Throw message =>
      warn ("Error processing package " +++ packageName +++ ": " +++ message) ;;;
      ret table
  | JS.Ok installedVersion =>
      installableVersion <- getInstallableVersion packageName packageJson ;;
      latestVersion <- getLatestVersion packageName "latest" ;;
      if JS.strict_eq_str installedVersion unableToDetermine
         || String.eqb installableVersion unableToDetermine
         || String.eqb latestVersion unableToDetermine
      then
        warn ("Unable to determine all versions for " +++ packageName +++ ". Skipping.") ;;;
        ret table
      else if negb (isValid installedVersion)
              || negb (isValid (JS.Str installableVersion))
              || negb (isValid (JS.Str latestVersion))
      then
        warn ("Invalid version detected for " +++ packageName +++ ". Skipping.") ;;;
        ret table
      else
        match installedVersion with
        | JS.Str installed =>
            if included all installed installableVersion latestVersion
            then ret (table ++ [DataRow (makeRow packageName dependencyType installed
                                           installableVersion latestVersion
                                           versionRange)])
            else ret table
        | _ => ret table (* [isValid] holds of strings only *)
        end
  end.

(** [for (const entry of Object.entries(dependencies))]. *)
Fixpoint forEachPackage (all : bool) (packageJson : Manifest)
  (packageLock : JS.value) (entries : StrMap) (table : list TableRow)
  : Console (list TableRow) :=
  match entries with
  | [] => ret table
  | entry :: rest =>
      table' <- processPackage all packageJson packageLock table entry ;;
      forEachPackage all packageJson packageLock rest table'
  end.

(** The table [compareVersions] prints, and the warnings written meanwhile. *)
Definition compareVersions (all : bool) (packageJson : Manifest)
  (packageLock : JS.value) : Console (list TableRow) :=
  table <- forEachPackage all packageJson packageLock
             (mergedDependencies packageJson) [] ;;
  if Nat.eqb (length table) 0 then ret [noDifferences] else ret table.

End Script.

(** ** A reference instance: release versions *)

(** An executable [Semver] for the release fragment of the package: the
    versions [MAJOR.MINOR.PATCH] with an optional leading [v] and
    surrounding white space, and the ranges [*], [MAJOR.MINOR.PATCH] and
    [^MAJOR.MINOR.PATCH].  Text outside the fragment (prerelease tags,
    build metadata, comparator sets) is treated as invalid; a tag such as
    [latest] is not a range, as in the package.  It instantiates the
    theorems at concrete inputs. *)
Module Reference.

Definition MAX_LENGTH : nat := 256.
Definition MAX_SAFE_INTEGER : Z := 9007199254740991.

Definition dot : ascii := "."%char.

Fixpoint split_dots (cur : list ascii) (l : list ascii) : list (list ascii) :=
  match l with
  | [] => [rev cur]
  | c :: rest =>
      if Ascii.eqb c dot then rev cur :: split_dots [] rest
      else split_dots (c :: cur) rest
  end.

Definition digit_value (c : ascii) : Z := Z.of_nat (nat_of_ascii c) - 48.

Definition decimal (ds : list ascii) : Z :=
  fold_left (fun n c => (10 * n + digit_value c)%Z) ds 0%Z.

(** [0|[1-9]\d*], not above [MAX_SAFE_INTEGER]. *)
Definition numeric (ds : list ascii) : option Z :=
  match ds with
  | [] => None
  | d :: rest =>
      if forallb Text.is_digit ds
         && (negb (Ascii.eqb d "0"%char) || Nat.eqb (length rest) 0)
         && (decimal ds <=? MAX_SAFE_INTEGER)%Z
      then Some (decimal ds)
      else None
  end.

Definition strip_v (l : list ascii) : list ascii :=
  match l with
  | c :: rest => if Ascii.eqb c "v"%char then rest else l
  | [] => []
  end.

(** The three identifiers of [v?MAJOR.MINOR.PATCH]. *)
Definition core (l : list ascii) : option (list ascii * list ascii * list ascii) :=
  match split_dots [] l with
  | [a; b; c] =>
      match numeric a, numeric b, numeric c with
      | Some _, Some _, Some _ => Some (a, b, c)
      | _, _, _ => None
      end
  | _ => None
  end.

Definition parse (s : string) : option (list ascii * list ascii * list ascii) :=
  if Nat.ltb MAX_LENGTH (String.length s) then None
  else core (strip_v (list_ascii_of_string (Text.trim s))).

Definition triple (p : list ascii * list ascii * list ascii) : Z * Z * Z :=
  let '(a, b, c) := p in (decimal a, decimal b, decimal c).

Definition format (p : list ascii * list ascii * list ascii) : string :=
  let '(a, b, c) := p in
  string_of_list_ascii (a ++ dot :: b ++ dot :: c).

Definition valid (s : string) : option string := option_map format (parse s).

Definition key (s : string) : Z * Z * Z :=
  match parse s with
  | Some p => triple p
  | None => (0, 0, 0)%Z
  end.

Definition major (s : string) : Z := fst (fst (key s)).

Definition compare3 (x y : Z * Z * Z) : comparison :=
  let '(x1, x2, x3) := x in
  let '(y1, y2, y3) := y in
  match (x1 ?= y1)%Z with
  | Eq => match (x2 ?= y2)%Z with
          | Eq => (x3 ?= y3)%Z
          | c => c
          end
  | c => c
  end.

Definition compare (a b : string) : comparison := compare3 (key a) (key b).

Definition diff (a b : string) : option string :=
  match parse a, parse b with
  | Some p, Some q =>
      let '(a1, a2, a3) := triple p in
      let '(b1, b2, b3) := triple q in
      if negb (a1 =? b1)%Z then Some "major"
      else if negb (a2 =? b2)%Z then Some "minor"
      else if negb (a3 =? b3)%Z then Some "patch"
      else None
  | _, _ => None
  end.

Inductive Range : Type :=
| Any
| Exactly (v : Z * Z * Z)
| Caret (v : Z * Z * Z).

Definition parseRange (r : string) : option Range :=
  match list_ascii_of_string r with
  | [c] => if Ascii.eqb c "*"%char then Some Any else None
  | c :: rest =>
      if Ascii.eqb c "^"%char
      then option_map (fun p => Caret (triple p)) (core rest)
      else option_map (fun p => Exactly (triple p)) (core (c :: rest))
  | [] => None
  end.

(** [^1.2.3] is [>=1.2.3 <2.0.0], [^0.2.3] is [>=0.2.3 <0.3.0] and
    [^0.0.3] is [>=0.0.3 <0.0.4]. *)
Definition caretUpper (v : Z * Z * Z) : Z * Z * Z :=
  let '(x, y, z) := v in
  if negb (x =? 0)%Z then (x + 1, 0, 0)%Z
  else if negb (y =? 0)%Z then (0, y + 1, 0)%Z
  else (0, 0, z + 1)%Z.

Definition test (rg : Range) (v : Z * Z * Z) : bool :=
  match rg with
  | Any => true
  | Exactly w => match compare3 v w with Eq => true | _ => false end
  | Caret w =>
      match compare3 v w with
      | Lt => false
      | _ => match compare3 v (caretUpper w) with Lt => true | _ => false end
      end
  end.

Definition satisfies (v r : string) : bool :=
  match parse v, parseRange r with
  | Some p, Some rg => test rg (triple p)
  | _, _ => false
  end.

(** The package's loop: the first of the greatest satisfying candidates. *)
Definition pickMax (r : string) (best : option string) (v : string)
  : option string :=
  if satisfies v r then
    match best with
    | None => Some v
    | Some m => match compare m v with Lt => Some v | _ => best end
    end
  else best.

Definition maxSatisfying (versions : list string) (r : string) : option string :=
  fold_left (pickMax r) versions None.

(** *** A registry and a JSON parser to run the script with *)

(** [JSON.parse] on the texts [npm show ... --json] prints: a string
    literal or a flat array of string literals, without escapes.  Any other
    text is refused, as a text that is not JSON would be. *)
Inductive ParserState : Type :=
| Start
| InString (cur : list ascii)
| ArrayOpen
| InElement (acc : list JS.value) (cur : list ascii)
| AfterElement (acc : list JS.value)
| AfterComma (acc : list JS.value)
| Finished (v : JS.value).

Definition is_json_space (c : ascii) : bool :=
  let n := nat_of_ascii c in
  Nat.eqb n 32 || Nat.eqb n 9 || Nat.eqb n 10 || Nat.eqb n 13.

(** A character a string literal may hold as it is. *)
Definition is_plain (c : ascii) : bool :=
  Nat.leb 32 (nat_of_ascii c) && negb (Ascii.eqb c "\"%char).

Definition finish (cur : list ascii) : JS.value :=
  JS.Str (string_of_list_ascii (rev cur)).

Fixpoint runParser (st : ParserState) (l : list ascii) : option JS.value :=
  match l with
  | [] => match st with Finished v => Some v | _ => None end
  | c :: rest =>
      match st with
      | Start =>
          if is_json_space c then runParser Start rest
          else if Ascii.eqb c Text.double_quote then runParser (InString []) rest
          else if Ascii.eqb c "["%char then runParser ArrayOpen rest
          else None
      | InString cur =>
          if Ascii.eqb c Text.double_quote then runParser (Finished (finish cur)) rest
          else if is_plain c then runParser (InString (c :: cur)) rest
          else None
      | ArrayOpen =>
          if is_json_space c then runParser ArrayOpen rest
          else if Ascii.eqb c "]"%char then runParser (Finished (JS.Arr [])) rest
          else if Ascii.eqb c Text.double_quote then runParser (InElement [] []) rest
          else None
      | InElement acc cur =>
          if Ascii.eqb c Text.double_quote
          then runParser (AfterElement (acc ++ [finish cur])) rest
          else if is_plain c then runParser (InElement acc (c :: cur)) rest
          else None
      | AfterElement acc =>
          if is_json_space c then runParser (AfterElement acc) rest
          else if Ascii.eqb c ","%char then runParser (AfterComma acc) rest
          else if Ascii.eqb c "]"%char then runParser (Finished (JS.Arr acc)) rest
          else None
      | AfterComma acc =>
          if is_json_space c then runParser (AfterComma acc) rest
          else if Ascii.eqb c Text.double_quote then runParser (InElement acc []) rest
          else None
      | Finished v =>
          if is_json_space c then runParser (Finished v) rest else None
      end
  end.

Definition JSON_parse (s : string) : option JS.value :=
  runParser Start (list_ascii_of_string s).

(** A registry with canned answers: what each command prints.  A command
    it does not know fails, as [npm show] does for an unknown package. *)
Definition registry (answers : list (string * string)) (command : string)
  : ExecResult :=
  match JS.lookup command answers with
  | Some stdout => Output stdout
  | None => Failure ("Command failed: " +++ command)
  end.

Definition env (answers : list (string * string)) : Env :=
  Build_Env (registry answers) JSON_parse.

(** A JSON string literal, and a JSON array of them. *)
Definition quote (s : string) : string :=
  String Text.double_quote s +++ String Text.double_quote EmptyString.

Definition array (items : list string) : string :=
  "[" +++ String.concat "," (map quote items) +++ "]".

(** *** The runtime *)

(** The members of [Object.prototype], which the objects that [JSON.parse]
    makes inherit.  [constructor] is the function [Object], and [__proto__]
    is the prototype itself.  The members of the other prototypes are left
    out of this instance: no scenario reads a property of an array, a
    string or a number by the name of a package. *)
Definition objectPrototype : list string :=
  ["constructor"; "__defineGetter__"; "__defineSetter__"; "hasOwnProperty";
   "__lookupGetter__"; "__lookupSetter__"; "isPrototypeOf";
   "propertyIsEnumerable"; "toString"; "valueOf"; "__proto__";
   "toLocaleString"].

Definition builtin (v : JS.value) (k : string) : option JS.value :=
  match v with
  | JS.Obj _ =>
      if existsb (String.eqb k) objectPrototype then
        Some (JS.Native (if String.eqb k "constructor" then "Object"
                         else if String.eqb k "__proto__" then "Object.prototype"
                         else k))
      else None
  | _ => None
  end.

(** [String(v)]: a built-in function prints as native code; integers are
    printed in decimal (as JavaScript does below [1e21]). *)
Fixpoint stringOf (v : JS.value) : string :=
  match v with
  | JS.undefined => "undefined"
  | JS.null => "null"
  | JS.Bool b => if b then "true" else "false"
  | JS.Num n => NilZero.string_of_int (Z.to_int n)
  | JS.Str s => s
  | JS.Arr items =>
      String.concat ","
        (map (fun item =>
                match item with
                | JS.undefined | JS.null => EmptyString
                | _ => stringOf item
                end) items)
  | JS.Obj _ => "[object Object]"
  | JS.Native name =>
      if String.eqb name "Object.prototype" then "[object Object]"
      else "function " +++ name +++ "() { [native code] }"
  end.

(** The wording of V8. *)
Definition typeError (v : JS.value) (k : string) : string :=
  "Cannot read properties of "
    +++ match v with JS.null => "null" | _ => "undefined" end
    +++ " (reading '" +++ k +++ "')".

(** *** The laws of the interface *)

Lemma compare3_spec (x1 x2 x3 y1 y2 y3 : Z) :
  match compare3 (x1, x2, x3) (y1, y2, y3) with
  | Lt => (x1 < y1 \/ (x1 = y1 /\ (x2 < y2 \/ (x2 = y2 /\ x3 < y3))))%Z
  | Eq => (x1 = y1 /\ x2 = y2 /\ x3 = y3)%Z
  | Gt => (y1 < x1 \/ (x1 = y1 /\ (y2 < x2 \/ (x2 = y2 /\ y3 < x3))))%Z
  end.
Proof.
  unfold compare3.
  destruct (Z.compare_spec x1 y1), (Z.compare_spec x2 y2),
    (Z.compare_spec x3 y3); lia.
Qed.

Lemma compare3_refl (x : Z * Z * Z) : compare3 x x = Eq.
Proof.
  destruct x as [[x1 x2] x3]. unfold compare3.
  now rewrite !Z.compare_refl.
Qed.

Lemma compare3_trans (x y z : Z * Z * Z) :
  compare3 x y <> Gt -> compare3 y z = Lt -> compare3 x z <> Gt.
Proof.
  destruct x as [[x1 x2] x3], y as [[y1 y2] y3], z as [[z1 z2] z3].
  pose proof (compare3_spec x1 x2 x3 y1 y2 y3) as Hxy.
  pose proof (compare3_spec y1 y2 y3 z1 z2 z3) as Hyz.
  pose proof (compare3_spec x1 x2 x3 z1 z2 z3) as Hxz.
  intros Hle Hlt Hgt. rewrite Hlt in Hyz. rewrite Hgt in Hxz.
  destruct (compare3 (x1, x2, x3) (y1, y2, y3)); [lia | lia | congruence].
Qed.

Lemma compare3_flip (x y : Z * Z * Z) :
  compare3 x y <> Lt -> compare3 y x <> Gt.
Proof.
  destruct x as [[x1 x2] x3], y as [[y1 y2] y3].
  pose proof (compare3_spec x1 x2 x3 y1 y2 y3) as Hxy.
  pose proof (compare3_spec y1 y2 y3 x1 x2 x3) as Hyx.
  intros Hnlt Hgt. rewrite Hgt in Hyx.
  destruct (compare3 (x1, x2, x3) (y1, y2, y3)); [lia | congruence | lia].
Qed.

Lemma builtin_is_native (v : JS.value) (k : string) (b : JS.value) :
  builtin v k = Some b -> exists n, b = JS.Native n.
Proof.
  destruct v; try discriminate. unfold builtin.
  destruct (existsb (String.eqb k) objectPrototype); [|discriminate].
  intros [= <-]. eexists. reflexivity.
Qed.

(** What the loop of [maxSatisfying] maintains over the candidates seen. *)
Definition best_of (r : string) (seen : list string) (best : option string)
  : Prop :=
  match best with
  | None => forall w, In w seen -> satisfies w r = false
  | Some m =>
      In m seen /\ satisfies m r = true /\
      forall w, In w seen -> satisfies w r = true -> compare w m <> Gt
  end.

Lemma pickMax_best_of (r : string) (seen : list string) (best : option string)
  (v : string) :
  best_of r seen best -> best_of r (seen ++ [v]) (pickMax r best v).
Proof.
  unfold pickMax. intros Hinv.
  destruct (satisfies v r) eqn:Hv.
  - destruct best as [m|]; simpl in Hinv.
    + destruct Hinv as (Hin & Hm & Hmax).
      destruct (compare m v) eqn:Hc; simpl.
      * split; [apply in_or_app; now left|]. split; [exact Hm|].
        intros w Hw Hsat. apply in_app_or in Hw as [Hw|[<-|[]]].
        -- now apply Hmax.
        -- apply compare3_flip. unfold compare in Hc. congruence.
      * split; [apply in_or_app; right; now left|]. split; [exact Hv|].
        intros w Hw Hsat. apply in_app_or in Hw as [Hw|[<-|[]]].
        -- unfold compare in *. eapply compare3_trans; eauto.
        -- unfold compare. rewrite compare3_refl. discriminate.
      * split; [apply in_or_app; now left|]. split; [exact Hm|].
        intros w Hw Hsat. apply in_app_or in Hw as [Hw|[<-|[]]].
        -- now apply Hmax.
        -- apply compare3_flip. unfold compare in Hc. congruence.
    + simpl. split; [apply in_or_app; right; now left|]. split; [exact Hv|].
      intros w Hw Hsat. apply in_app_or in Hw as [Hw|[<-|[]]].
      * rewrite (Hinv w Hw) in Hsat. discriminate.
      * unfold compare. rewrite compare3_refl. discriminate.
  - destruct best as [m|]; simpl in *.
    + destruct Hinv as (Hin & Hm & Hmax).
      split; [apply in_or_app; now left|]. split; [exact Hm|].
      intros w Hw Hsat. apply in_app_or in Hw as [Hw|[<-|[]]].
      * now apply Hmax.
      * congruence.
    + intros w Hw. apply in_app_or in Hw as [Hw|[<-|[]]]; auto.
Qed.

Lemma fold_best_of (r : string) (vs seen : list string) (best : option string) :
  best_of r seen best ->
  best_of r (seen ++ vs) (fold_left (pickMax r) vs best).
Proof.
  revert seen best.
  induction vs as [|v vs IH]; intros seen best Hinv; simpl.
  - now rewrite app_nil_r.
  - replace (seen ++ v :: vs) with ((seen ++ [v]) ++ vs)
      by (rewrite <- app_assoc; reflexivity).
    apply IH. now apply pickMax_best_of.
Qed.

Lemma maxSatisfying_best_of (vs : list string) (r : string) :
  best_of r vs (maxSatisfying vs r).
Proof.
  unfold maxSatisfying.
  apply (fold_best_of r vs [] None). intros w [].
Qed.

Lemma drop_spaces_incl (l : list ascii) (c : ascii) :
  In c (Text.drop_spaces l) -> In c l.
Proof.
  induction l as [|d l IH]; simpl; [tauto|].
  destruct (Text.is_space d); simpl; auto.
Qed.

Lemma trim_incl (s : string) (c : ascii) :
  In c (list_ascii_of_string (Text.trim s)) -> In c (list_ascii_of_string s).
Proof.
  unfold Text.trim. rewrite list_ascii_of_string_of_list_ascii.
  intros H. apply in_rev, drop_spaces_incl, in_rev, drop_spaces_incl in H.
  exact H.
Qed.

Lemma strip_v_incl (l : list ascii) (c : ascii) : In c (strip_v l) -> In c l.
Proof.
  destruct l as [|d l]; simpl; [tauto|].
  destruct (Ascii.eqb d "v"); simpl; auto.
Qed.

Lemma split_dots_incl (l cur part : list ascii) (c : ascii) :
  In part (split_dots cur l) -> In c part -> In c cur \/ In c l.
Proof.
  revert cur.
  induction l as [|d l IH]; intros cur Hpart Hc; simpl in Hpart.
  - destruct Hpart as [<-|[]]. left. now apply in_rev.
  - destruct (Ascii.eqb d dot).
    + destruct Hpart as [<-|Hpart].
      * left. now apply in_rev.
      * destruct (IH [] Hpart Hc) as [[]|H]. right; now right.
    + destruct (IH (d :: cur) Hpart Hc) as [[<-|H]|H].
      * right; now left.
      * now left.
      * right; now right.
Qed.

Lemma numeric_digit (ds : list ascii) (n : Z) :
  numeric ds = Some n -> exists d, In d ds /\ Text.is_digit d = true.
Proof.
  destruct ds as [|d rest]; simpl; [discriminate|].
  destruct (Text.is_digit d) eqn:Hd; simpl; [|discriminate].
  intros _. exists d. split; [now left|exact Hd].
Qed.

Lemma core_digit (l : list ascii) (p : list ascii * list ascii * list ascii) :
  core l = Some p -> exists d, In d l /\ Text.is_digit d = true.
Proof.
  unfold core.
  destruct (split_dots [] l) as [|a [|b [|c [|e t]]]] eqn:Hs; try discriminate.
  destruct (numeric a) as [x|] eqn:Ha; [|discriminate].
  intros _. destruct (numeric_digit a x Ha) as (d & Hin & Hd).
  exists d. split; [|exact Hd].
  destruct (split_dots_incl l [] a d) as [[]|H]; auto.
  rewrite Hs. now left.
Qed.

Lemma valid_has_digit (s n : string) :
  valid s = Some n -> existsb Text.is_digit (list_ascii_of_string s) = true.
Proof.
  unfold valid, parse.
  destruct (Nat.ltb MAX_LENGTH (String.length s)); [discriminate|].
  destruct (core _) as [p|] eqn:Hp; [|discriminate].
  intros _. destruct (core_digit _ p Hp) as (d & Hin & Hd).
  apply existsb_exists. exists d. split; [|exact Hd].
  now apply trim_incl, strip_v_incl.
Qed.

Lemma valid_not_empty (s n : string) : valid s = Some n -> n <> EmptyString.
Proof.
  unfold valid. destruct (parse s) as [[[a b] c]|]; [|discriminate].
  intros [= <-]. unfold format. destruct a; simpl; discriminate.
Qed.

Definition semver : Semver.
Proof.
  refine (Build_Semver valid major diff satisfies compare maxSatisfying
            _ _ _ _ _ _).
  - exact valid_not_empty.
  - exact valid_has_digit.
  - intros vs r v H. pose proof (maxSatisfying_best_of vs r) as B.
    rewrite H in B. apply B.
  - intros vs r v H. pose proof (maxSatisfying_best_of vs r) as B.
    rewrite H in B. apply B.
  - intros vs r v w H. pose proof (maxSatisfying_best_of vs r) as B.
    rewrite H in B. apply B.
  - intros vs r w H. pose proof (maxSatisfying_best_of vs r) as B.
    rewrite H in B. apply B.
Defined.

Definition runtime : JS.Runtime.
Proof.
  refine (JS.Build_Runtime builtin stringOf typeError _ _ _ _ _).
  - intros v. destruct v; reflexivity.
  - intros v. destruct v; reflexivity.
  - intros v. destruct v; reflexivity.
  - intros v name. destruct v; reflexivity.
  - intros v k b H. apply builtin_is_native in H as [n ->]. reflexivity.
Defined.

End Reference.

(** * Properties *)

Section Properties.

Context {semver : Semver} {runtime : JS.Runtime}.
Variable env : Env.

Local Arguments String.append : simpl never.

(** Membership in a log built by [bind]. *)
Ltac in_log :=
  first [ now left
        | apply in_or_app; right; in_log
        | apply in_or_app; left; in_log ].

(** ** Auxiliary definitions *)

(** The rows one entry adds to an empty table. *)
Definition rowsOf (all : bool) (packageJson : Manifest) (packageLock : JS.value)
  (entry : string * string) : list TableRow :=
  fst (processPackage env all packageJson packageLock [] entry).

Definition skippedUnable (packageName : string) : string :=
  "Unable to determine all versions for " +++ packageName +++ ". Skipping.".

Definition skippedInvalid (packageName : string) : string :=
  "Invalid version detected for " +++ packageName +++ ". Skipping.".

(** The value a list of assignments leaves for a key: the last one. *)
Fixpoint lastAssigned (k : string) (m : StrMap) : option string :=
  match m with
  | [] => None
  | (k', v) :: rest =>
      match lastAssigned k rest with
      | Some w => Some w
      | None => if String.eqb k' k then Some v else None
      end
  end.

Definition lastAssignedIn (o : option StrMap) (k : string) : option string :=
  match o with
  | Some m => lastAssigned k m
  | None => None
  end.

(** The names of the data rows of a table, in order. *)
Fixpoint dataRowNames (table : list TableRow) : list string :=
  match table with
  | [] => []
  | DataRow r :: rest => rowName r :: dataRowNames rest
  | SpanRow _ _ _ :: rest => dataRowNames rest
  end.

(** A name is a key of one of the maps of the manifest. *)
Definition declaredIn (o : option StrMap) (k : string) : Prop :=
  match o with
  | Some m => In k (map fst m)
  | None => False
  end.

(** Whether the loop pushes a row for a name (the range of the entry only
    goes into the text of a cell). *)
Definition hasRow (all : bool) (packageJson : Manifest) (packageLock : JS.value)
  (packageName : string) : bool :=
  negb (Nat.eqb (length (rowsOf all packageJson packageLock
                           (packageName, EmptyString))) 0).

(** A character that is neither a quote nor a line terminator. *)
Definition plain (c : ascii) : bool :=
  negb (Text.is_quote c) && negb (Text.is_line_terminator c).

Definition notFound (packageName : string) : string :=
  "Package " +++ packageName +++ " not found in package.json".

(** The value of [lock.packages && lock.packages["node_modules/<name>"]]
    and of [lock.dependencies && lock.dependencies[<name>]] for a lockfile
    that is not [undefined] or [null]. *)
Definition nestedEntry (lockDependencies : JS.value) (packageName : string)
  : JS.value :=
  if JS.truthy (JS.field lockDependencies "packages")
  then JS.field (JS.field lockDependencies "packages")
                ("node_modules/" +++ packageName)
  else JS.field lockDependencies "packages".

Definition legacyEntry (lockDependencies : JS.value) (packageName : string)
  : JS.value :=
  if JS.truthy (JS.field lockDependencies "dependencies")
  then JS.member (JS.field lockDependencies "dependencies") packageName
  else JS.field lockDependencies "dependencies".

(** ** Validity *)

Lemma isValid_Str (s : string) : isValid (JS.Str s) = true <-> valid s <> None.
Proof.
  unfold isValid, semver_valid.
  destruct (valid s) as [n|] eqn:Hv; simpl.
  - pose proof (valid_nonempty s n Hv) as Hn.
    destruct (String.eqb_spec n EmptyString); [contradiction|].
    simpl. split; [discriminate|reflexivity].
  - split; [discriminate|congruence].
Qed.

Lemma isValid_is_string (v : JS.value) :
  isValid v = true -> exists s, v = JS.Str s /\ valid s <> None.
Proof.
  destruct v; try discriminate.
  intros H. exists s. split; [reflexivity|now apply isValid_Str].
Qed.

Lemma not_isValid_Str (s : string) : isValid (JS.Str s) = false <-> valid s = None.
Proof.
  pose proof (isValid_Str s) as H.
  destruct (isValid (JS.Str s)), (valid s) as [n|];
    split; intros Hv; try congruence.
  - exfalso. now apply H.
  - assert (false = true) by (apply H; discriminate). discriminate.
Qed.

(** A string without a digit is not a version: the sentinels are not. *)
Lemma no_digit_invalid (s : string) :
  existsb Text.is_digit (list_ascii_of_string s) = false -> valid s = None.
Proof.
  intros H. destruct (valid s) as [n|] eqn:Hv; [|reflexivity].
  apply valid_digit in Hv. congruence.
Qed.

Lemma valid_not_unable (s : string) :
  valid s <> None -> String.eqb s unableToDetermine = false.
Proof.
  intros Hv. destruct (String.eqb_spec s unableToDetermine) as [->|]; [|reflexivity].
  exfalso. apply Hv. now apply no_digit_invalid.
Qed.

(** ** The loop *)

Lemma processPackage_table (all : bool) (packageJson : Manifest)
  (packageLock : JS.value) (table : list TableRow) (entry : string * string) :
  processPackage env all packageJson packageLock table entry =
  (table ++ rowsOf all packageJson packageLock entry,
   snd (processPackage env all packageJson packageLock [] entry)).
Proof.
  unfold rowsOf, processPackage. destruct entry as [packageName versionRange].
  unfold bind, warn, ret.
  destruct (getInstalledVersion packageName packageLock)
    as [installedVersion|message]; [|simpl; now rewrite app_nil_r].
  destruct (getInstallableVersion env packageName packageJson) as [b w1].
  destruct (getLatestVersion env packageName "latest") as [c w2].
  destruct (_ || _ || _); simpl; [now rewrite app_nil_r|].
  destruct (_ || _ || _); simpl; [now rewrite app_nil_r|].
  destruct installedVersion as [| |bit|num|installed|items|fields|native]; simpl;
    try now rewrite !app_nil_r.
  destruct (included all installed b c); simpl;
    [reflexivity|now rewrite !app_nil_r].
Qed.

Lemma forEachPackage_table (all : bool) (packageJson : Manifest)
  (packageLock : JS.value) (entries : StrMap) (table : list TableRow) :
  fst (forEachPackage env all packageJson packageLock entries table) =
  table ++ flat_map (rowsOf all packageJson packageLock) entries.
Proof.
  revert table. induction entries as [|entry rest IH]; intros table; simpl.
  - now rewrite app_nil_r.
  - unfold bind. rewrite processPackage_table.
    specialize (IH (table ++ rowsOf all packageJson packageLock entry)).
    destruct (forEachPackage _ _ _ _ rest _) as [t w]. simpl in *.
    rewrite IH. now rewrite app_assoc.
Qed.

(** The warnings of the loop are those of its entries, in order. *)
Lemma forEachPackage_warnings (all : bool) (packageJson : Manifest)
  (packageLock : JS.value) (entries : StrMap) (table : list TableRow) :
  snd (forEachPackage env all packageJson packageLock entries table) =
  flat_map (fun entry =>
              snd (processPackage env all packageJson packageLock [] entry))
           entries.
Proof.
  revert table. induction entries as [|entry rest IH]; intros table; simpl.
  - reflexivity.
  - unfold bind. rewrite processPackage_table.
    specialize (IH (table ++ rowsOf all packageJson packageLock entry)).
    destruct (forEachPackage _ _ _ _ rest _) as [t w]. simpl in *.
    now rewrite IH.
Qed.

(** The data rows of the report are the rows the loop pushed. *)
Lemma compareVersions_rows (all : bool) (packageJson : Manifest)
  (packageLock : JS.value) (r : Row) :
  In (DataRow r) (fst (compareVersions env all packageJson packageLock)) <->
  exists entry, In entry (mergedDependencies packageJson) /\
                In (DataRow r) (rowsOf all packageJson packageLock entry).
Proof.
  unfold compareVersions, bind.
  pose proof (forEachPackage_table all packageJson packageLock
                (mergedDependencies packageJson) []) as Ht.
  destruct (forEachPackage _ _ _ _ _ _) as [t w]. simpl in Ht. subst t.
  rewrite <- in_flat_map.
  destruct (flat_map _ _) as [|row rows]; simpl.
  - split; [intros [H|[]]; discriminate|tauto].
  - tauto.
Qed.

(** What an entry pushes: nothing, or the one row of its package, made of
    three valid versions that pass the test of line 225. *)
Lemma rowsOf_inv (all : bool) (packageJson : Manifest) (packageLock : JS.value)
  (packageName versionRange : string) (r : Row) :
  In (DataRow r) (rowsOf all packageJson packageLock (packageName, versionRange)) ->
  exists installed,
    getInstalledVersion packageName packageLock = JS.Str installed /\
    valid installed <> None /\
    valid (fst (getInstallableVersion env packageName packageJson)) <> None /\
    valid (fst (getLatestVersion env packageName "latest")) <> None /\
    included all installed
      (fst (getInstallableVersion env packageName packageJson))
      (fst (getLatestVersion env packageName "latest")) = true /\
    r = makeRow packageName (dependencyTypeOf packageJson packageName) installed
          (fst (getInstallableVersion env packageName packageJson))
          (fst (getLatestVersion env packageName "latest")) versionRange.
Proof.
  unfold rowsOf, processPackage, bind, warn, ret.
  destruct (getInstalledVersion packageName packageLock)
    as [installedVersion|message]; [|simpl; tauto].
  destruct (getInstallableVersion env packageName packageJson) as [b w1].
  destruct (getLatestVersion env packageName "latest") as [c w2]. simpl.
  destruct (_ || _ || _); simpl; [tauto|].
  destruct (negb (isValid installedVersion)
            || negb (isValid (JS.Str b)) || negb (isValid (JS.Str c))) eqn:Hg;
    simpl; [tauto|].
  apply orb_false_elim in Hg as [Hg Hc]. apply orb_false_elim in Hg as [Ha Hb].
  apply negb_false_iff in Ha, Hb, Hc.
  destruct (isValid_is_string _ Ha) as (installed & Heq & Hva).
  rewrite Heq. apply isValid_Str in Hb, Hc.
  destruct (included all installed b c) eqn:Hi; simpl; [|tauto].
  intros [[= <-]|[]]. exists installed. repeat split; auto.
Qed.

Lemma rowsOf_classified (all : bool) (packageJson : Manifest)
  (packageLock : JS.value) (packageName versionRange installed : string) :
  getInstalledVersion packageName packageLock = JS.Str installed ->
  valid installed <> None ->
  valid (fst (getInstallableVersion env packageName packageJson)) <> None ->
  valid (fst (getLatestVersion env packageName "latest")) <> None ->
  rowsOf all packageJson packageLock (packageName, versionRange) =
  if included all installed
       (fst (getInstallableVersion env packageName packageJson))
       (fst (getLatestVersion env packageName "latest"))
  then [DataRow (makeRow packageName (dependencyTypeOf packageJson packageName)
                   installed
                   (fst (getInstallableVersion env packageName packageJson))
                   (fst (getLatestVersion env packageName "latest"))
                   versionRange)]
  else [].
Proof.
  unfold rowsOf, processPackage, bind, warn, ret.
  intros Hi. rewrite Hi.
  destruct (getInstallableVersion env packageName packageJson) as [b w1].
  destruct (getLatestVersion env packageName "latest") as [c w2]. simpl.
  intros Ha Hb Hc.
  rewrite (valid_not_unable installed Ha), (valid_not_unable b Hb),
    (valid_not_unable c Hc). simpl.
  apply isValid_Str in Ha, Hb, Hc. rewrite Ha, Hb, Hc. simpl.
  destruct (included all installed b c); reflexivity.
Qed.

Lemma makeRow_name (packageName dependencyType a b c versionRange : string) :
  rowName (makeRow packageName dependencyType a b c versionRange) = packageName.
Proof.
  unfold makeRow. destruct (colorize a b c versionRange) as [[x y] z].
  reflexivity.
Qed.

(** The warnings of the report are those of the entries. *)
Lemma compareVersions_warnings (all : bool) (packageJson : Manifest)
  (packageLock : JS.value) :
  snd (compareVersions env all packageJson packageLock) =
  flat_map (fun entry =>
              snd (processPackage env all packageJson packageLock [] entry))
           (mergedDependencies packageJson).
Proof.
  unfold compareVersions, bind.
  pose proof (forEachPackage_warnings all packageJson packageLock
                (mergedDependencies packageJson) []) as Hw.
  destruct (forEachPackage _ _ _ _ _ _) as [t w]. simpl in Hw. subst w.
  destruct (Nat.eqb (length t) 0); simpl; now rewrite app_nil_r.
Qed.

(** An entry with a version that is not valid pushes nothing and warns. *)
Lemma processPackage_skips (all : bool) (packageJson : Manifest)
  (packageLock : JS.value) (packageName versionRange : string)
  (installedVersion : JS.value) :
  getInstalledVersion packageName packageLock = JS.Ok installedVersion ->
  isValid installedVersion = false \/
  valid (fst (getInstallableVersion env packageName packageJson)) = None \/
  valid (fst (getLatestVersion env packageName "latest")) = None ->
  rowsOf all packageJson packageLock (packageName, versionRange) = [] /\
  (In (skippedUnable packageName)
      (snd (processPackage env all packageJson packageLock []
              (packageName, versionRange))) \/
   In (skippedInvalid packageName)
      (snd (processPackage env all packageJson packageLock []
              (packageName, versionRange)))).
Proof.
  unfold rowsOf, processPackage, bind, warn, ret, skippedUnable, skippedInvalid.
  intros Hinst. rewrite Hinst.
  destruct (getInstallableVersion env packageName packageJson) as [b w1].
  destruct (getLatestVersion env packageName "latest") as [c w2]. simpl.
  intros Hbad.
  destruct (_ || _ || _); simpl.
  - split; [reflexivity|]. left. in_log.
  - assert (negb (isValid installedVersion)
            || negb (isValid (JS.Str b)) || negb (isValid (JS.Str c)) = true)
      as ->.
    { destruct Hbad as [H|[H|H]].
      - rewrite H. reflexivity.
      - apply not_isValid_Str in H. rewrite H. simpl.
        now rewrite orb_true_r.
      - apply not_isValid_Str in H. rewrite H. simpl. apply orb_true_r. }
    simpl. split; [reflexivity|]. right. in_log.
Qed.

(** A read that throws leaves the table as it is, too. *)
Lemma processPackage_throws (all : bool) (packageJson : Manifest)
  (packageLock : JS.value) (packageName versionRange message : string) :
  getInstalledVersion packageName packageLock = JS.Throw message ->
  processPackage env all packageJson packageLock [] (packageName, versionRange) =
  ([], ["Error processing package " +++ packageName +++ ": " +++ message]).
Proof.
  unfold processPackage. now intros ->.
Qed.

(** ** The merged object *)

Lemma assign_keys (k v : string) (o : StrMap) (k' : string) :
  In k' (map fst (assign k v o)) <-> k' = k \/ In k' (map fst o).
Proof.
  induction o as [|[k0 v0] o IH]; simpl.
  - intuition.
  - destruct (String.eqb_spec k0 k) as [->|Hne]; simpl; [intuition|].
    rewrite IH. intuition.
Qed.

Lemma assign_NoDup (k v : string) (o : StrMap) :
  NoDup (map fst o) -> NoDup (map fst (assign k v o)).
Proof.
  induction o as [|[k0 v0] o IH]; simpl; intros Hnd.
  - constructor; [tauto|constructor].
  - inversion Hnd as [|? ? Hnotin Hrest]; subst.
    destruct (String.eqb_spec k0 k) as [->|Hne]; simpl.
    + now constructor.
    + constructor; [|auto].
      rewrite assign_keys. intros [->|H]; [congruence|contradiction].
Qed.

Lemma spread_NoDup (acc : StrMap) (src : option StrMap) :
  NoDup (map fst acc) -> NoDup (map fst (spread acc src)).
Proof.
  destruct src as [m|]; simpl; [|auto].
  revert acc. induction m as [|[k v] m IH]; simpl; intros acc Hnd; [auto|].
  apply IH. now apply assign_NoDup.
Qed.

(** [Object.entries(dependencies)] names every package once. *)
Lemma mergedDependencies_NoDup (packageJson : Manifest) :
  NoDup (map fst (mergedDependencies packageJson)).
Proof.
  unfold mergedDependencies. do 3 apply spread_NoDup. constructor.
Qed.

(** ** Rows and skipped packages *)

(** Every data row of the report is the row of a declared package whose
    three versions are valid. *)
Lemma report_row_inv (all : bool) (packageJson : Manifest)
  (packageLock : JS.value) (r : Row) :
  In (DataRow r) (fst (compareVersions env all packageJson packageLock)) ->
  exists versionRange installed,
    In (rowName r, versionRange) (mergedDependencies packageJson) /\
    getInstalledVersion (rowName r) packageLock = JS.Str installed /\
    valid installed <> None /\
    valid (fst (getInstallableVersion env (rowName r) packageJson)) <> None /\
    valid (fst (getLatestVersion env (rowName r) "latest")) <> None /\
    included all installed
      (fst (getInstallableVersion env (rowName r) packageJson))
      (fst (getLatestVersion env (rowName r) "latest")) = true /\
    r = makeRow (rowName r) (dependencyTypeOf packageJson (rowName r)) installed
          (fst (getInstallableVersion env (rowName r) packageJson))
          (fst (getLatestVersion env (rowName r) "latest")) versionRange.
Proof.
  intros Hin. apply compareVersions_rows in Hin as ([name range] & Hentry & Hrow).
  apply rowsOf_inv in Hrow as (installed & Hi & Ha & Hb & Hc & Hinc & Hr).
  assert (rowName r = name) as Hname by (rewrite Hr; apply makeRow_name).
  rewrite Hname. exists range, installed. repeat split; auto.
Qed.

Lemma skipped_entry (all : bool) (packageJson : Manifest)
  (packageLock : JS.value) (packageName versionRange : string)
  (installedVersion : JS.value) :
  In (packageName, versionRange) (mergedDependencies packageJson) ->
  getInstalledVersion packageName packageLock = JS.Ok installedVersion ->
  isValid installedVersion = false \/
  valid (fst (getInstallableVersion env packageName packageJson)) = None \/
  valid (fst (getLatestVersion env packageName "latest")) = None ->
  (forall r, In (DataRow r) (fst (compareVersions env all packageJson packageLock)) ->
             rowName r <> packageName) /\
  (In (skippedUnable packageName)
      (snd (compareVersions env all packageJson packageLock)) \/
   In (skippedInvalid packageName)
      (snd (compareVersions env all packageJson packageLock))).
Proof.
  intros Hentry Hinst Hbad. split.
  - intros r Hr Hname.
    apply report_row_inv in Hr
      as (range & installed & _ & Hi & Ha & Hb & Hc & _).
    rewrite Hname in *. rewrite Hinst in Hi. injection Hi as ->.
    destruct Hbad as [H|[H|H]]; try contradiction.
    apply not_isValid_Str in H. contradiction.
  - destruct (processPackage_skips all packageJson packageLock packageName
                versionRange installedVersion Hinst Hbad) as [_ Hw].
    rewrite compareVersions_warnings.
    destruct Hw as [Hw|Hw]; [left|right];
      apply in_flat_map; exists (packageName, versionRange); auto.
Qed.

Lemma thrown_entry (all : bool) (packageJson : Manifest)
  (packageLock : JS.value) (packageName versionRange message : string) :
  In (packageName, versionRange) (mergedDependencies packageJson) ->
  getInstalledVersion packageName packageLock = JS.Throw message ->
  (forall r, In (DataRow r) (fst (compareVersions env all packageJson packageLock)) ->
             rowName r <> packageName) /\
  In ("Error processing package " +++ packageName +++ ": " +++ message)
     (snd (compareVersions env all packageJson packageLock)).
Proof.
  intros Hentry Hthrow. split.
  - intros r Hr Hname.
    apply report_row_inv in Hr as (range & installed & _ & Hi & _).
    rewrite Hname in Hi. congruence.
  - rewrite compareVersions_warnings. apply in_flat_map.
    exists (packageName, versionRange). split; [exact Hentry|].
    rewrite (processPackage_throws all packageJson packageLock packageName
               versionRange message Hthrow). now left.
Qed.

(** ** The lockfile reader *)

Lemma get_truthy (v : JS.value) (k : string) :
  JS.truthy v = true -> JS.get v k = JS.Ok (JS.member v k).
Proof.
  destruct v; simpl; intros H; try reflexivity; discriminate.
Qed.

Lemma member_field (v : JS.value) (k : string) :
  JS.builtin v k = None -> JS.member v k = JS.field v k.
Proof.
  unfold JS.member, JS.field. now intros ->.
Qed.

(** The condition [lock.packages && lock.packages[key]]. *)
Lemma nested_condition (lockDependencies : JS.value) (packageName : string) :
  JS.truthy lockDependencies = true ->
  JS.and_ (JS.get lockDependencies "packages")
          (get2 lockDependencies "packages" ("node_modules/" +++ packageName)) =
  JS.Ok (nestedEntry lockDependencies packageName).
Proof.
  intros Hlock. unfold get2, nestedEntry.
  rewrite (get_truthy _ _ Hlock), (member_field _ _ (JS.builtin_packages _)).
  unfold JS.and_, JS.bind.
  destruct (JS.truthy (JS.field lockDependencies "packages")) eqn:Hp;
    [|reflexivity].
  rewrite (get_truthy _ _ Hp).
  now rewrite (member_field _ _ (JS.builtin_node_modules _ _)).
Qed.

(** The condition [lock.dependencies && lock.dependencies[name]]. *)
Lemma legacy_condition (lockDependencies : JS.value) (packageName : string) :
  JS.truthy lockDependencies = true ->
  JS.and_ (JS.get lockDependencies "dependencies")
          (get2 lockDependencies "dependencies" packageName) =
  JS.Ok (legacyEntry lockDependencies packageName).
Proof.
  intros Hlock. unfold get2, legacyEntry.
  rewrite (get_truthy _ _ Hlock), (member_field _ _ (JS.builtin_dependencies _)).
  unfold JS.and_, JS.bind.
  destruct (JS.truthy (JS.field lockDependencies "dependencies")) eqn:Hd;
    [|reflexivity].
  now rewrite (get_truthy _ _ Hd).
Qed.

Lemma versionOf_nested (lockDependencies : JS.value) (packageName : string) :
  JS.truthy lockDependencies = true ->
  JS.truthy (nestedEntry lockDependencies packageName) = true ->
  versionOf lockDependencies "packages" ("node_modules/" +++ packageName) =
  JS.Ok (JS.field (nestedEntry lockDependencies packageName) "version").
Proof.
  intros Hlock. unfold versionOf, get2, nestedEntry.
  rewrite (get_truthy _ _ Hlock), (member_field _ _ (JS.builtin_packages _)).
  destruct (JS.truthy (JS.field lockDependencies "packages")) eqn:Hp;
    [|congruence].
  intros Hentry. unfold JS.bind. rewrite (get_truthy _ _ Hp).
  rewrite (member_field _ _ (JS.builtin_node_modules _ _)).
  rewrite (get_truthy _ _ Hentry).
  now rewrite (member_field _ _ (JS.builtin_version _)).
Qed.

Lemma versionOf_legacy (lockDependencies : JS.value) (packageName : string) :
  JS.truthy lockDependencies = true ->
  JS.truthy (legacyEntry lockDependencies packageName) = true ->
  versionOf lockDependencies "dependencies" packageName =
  JS.Ok (JS.field (legacyEntry lockDependencies packageName) "version").
Proof.
  intros Hlock. unfold versionOf, get2, legacyEntry.
  rewrite (get_truthy _ _ Hlock), (member_field _ _ (JS.builtin_dependencies _)).
  destruct (JS.truthy (JS.field lockDependencies "dependencies")) eqn:Hd;
    [|congruence].
  intros Hentry. unfold JS.bind. rewrite (get_truthy _ _ Hd).
  rewrite (get_truthy _ _ Hentry).
  now rewrite (member_field _ _ (JS.builtin_version _)).
Qed.

(** What the reader returns for a lockfile that is truthy. *)
Lemma getInstalledVersion_returns (packageName : string)
  (lockDependencies : JS.value) :
  JS.truthy lockDependencies = true ->
  getInstalledVersion packageName lockDependencies =
  JS.Ok (if JS.truthy (nestedEntry lockDependencies packageName)
         then JS.field (nestedEntry lockDependencies packageName) "version"
         else if JS.truthy (legacyEntry lockDependencies packageName)
         then JS.field (legacyEntry lockDependencies packageName) "version"
         else JS.Str "Not installed").
Proof.
  intros Hlock. unfold getInstalledVersion.
  rewrite (nested_condition _ _ Hlock). cbn [JS.bind].
  destruct (JS.truthy (nestedEntry lockDependencies packageName)) eqn:Hn.
  - now apply versionOf_nested.
  - rewrite (legacy_condition _ _ Hlock). cbn [JS.bind].
    destruct (JS.truthy (legacyEntry lockDependencies packageName)) eqn:Hl;
      [|reflexivity].
    now apply versionOf_legacy.
Qed.

(** The first thing the reader does is to read [packages] off its
    argument: at [undefined] and at [null] it throws. *)
Lemma getInstalledVersion_nullish (packageName : string)
  (lockDependencies : JS.value) :
  lockDependencies = JS.undefined \/ lockDependencies = JS.null ->
  getInstalledVersion packageName lockDependencies =
  JS.Throw (JS.typeError lockDependencies "packages").
Proof.
  intros [-> | ->]; reflexivity.
Qed.


(** What the reader returns for a name that neither shape has as an own
    entry: the sentinel, or [undefined] when the legacy map inherits a
    member of that name; neither is a valid version. *)
Lemma getInstalledVersion_absent (packageName : string)
  (lockDependencies : JS.value) :
  JS.truthy lockDependencies = true ->
  JS.own (JS.field lockDependencies "packages") ("node_modules/" +++ packageName)
    = None ->
  JS.own (JS.field lockDependencies "dependencies") packageName = None ->
  (getInstalledVersion packageName lockDependencies = JS.Ok (JS.Str "Not installed") \/
   getInstalledVersion packageName lockDependencies = JS.Ok JS.undefined) /\
  (JS.builtin (JS.field lockDependencies "dependencies") packageName = None ->
   getInstalledVersion packageName lockDependencies = JS.Ok (JS.Str "Not installed")).
Proof.
  intros Hlock Hnested Hlegacy.
  rewrite (getInstalledVersion_returns _ _ Hlock).
  assert (JS.truthy (nestedEntry lockDependencies packageName) = false) as ->.
  { unfold nestedEntry.
    destruct (JS.truthy (JS.field lockDependencies "packages")) eqn:Hp;
      [|exact Hp].
    unfold JS.field at 1. now rewrite Hnested. }
  unfold legacyEntry.
  destruct (JS.truthy (JS.field lockDependencies "dependencies")) eqn:Hd.
  - unfold JS.member. rewrite Hlegacy.
    destruct (JS.builtin (JS.field lockDependencies "dependencies") packageName)
      as [b|] eqn:Hb.
    + split; [|discriminate].
      destruct (JS.truthy b); [|now left].
      right. unfold JS.field. now rewrite (JS.builtin_no_version _ _ _ Hb).
    + split; [now left|reflexivity].
  - rewrite Hd. split; [now left|reflexivity].
Qed.

(** C10.  A package declared in the manifest that neither shape of a
    truthy lockfile has as an entry of its own is skipped: the sentinel
    [Not installed] is not a valid version, the reader returns it (or
    [undefined], when the legacy map inherits a member of that name, which
    is not valid either), a warning names the package and it has no row in
    the report, whatever the show-all flag. *)
Theorem not_installed_is_skipped (all : bool) (packageJson : Manifest)
  (packageLock : JS.value) (packageName versionRange : string) :
  In (packageName, versionRange) (mergedDependencies packageJson) ->
  JS.truthy packageLock = true ->
  JS.own (JS.field packageLock "packages") ("node_modules/" +++ packageName)
    = None ->
  JS.own (JS.field packageLock "dependencies") packageName = None ->
  isValid (JS.Str "Not installed") = false /\
  (getInstalledVersion packageName packageLock = JS.Ok (JS.Str "Not installed") \/
   getInstalledVersion packageName packageLock = JS.Ok JS.undefined) /\
  (JS.builtin (JS.field packageLock "dependencies") packageName = None ->
   getInstalledVersion packageName packageLock = JS.Ok (JS.Str "Not installed")) /\
  (forall r, In (DataRow r) (fst (compareVersions env all packageJson packageLock)) ->
             rowName r <> packageName) /\
  (In (skippedUnable packageName)
      (snd (compareVersions env all packageJson packageLock)) \/
   In (skippedInvalid packageName)
      (snd (compareVersions env all packageJson packageLock))).
Proof.
  intros Hentry Hlock Hnested Hlegacy.
  destruct (getInstalledVersion_absent _ _ Hlock Hnested Hlegacy)
    as [Hresult Hsentinel].
  assert (isValid (JS.Str "Not installed") = false) as Hbad.
  { apply not_isValid_Str. now apply no_digit_invalid. }
  split; [exact Hbad|]. split; [exact Hresult|]. split; [exact Hsentinel|].
  destruct Hresult as [Hinst|Hinst];
    apply (skipped_entry all packageJson packageLock packageName versionRange _
             Hentry Hinst); left; [exact Hbad|reflexivity].
Qed.

(** ** Inclusion *)

(** C1.  A declared package whose three versions are valid (a successfully
    classified dependency) has a row in the report exactly when the
    show-all flag is set, or the installable version differs from the
    installed one, or the latest version does. *)
Theorem inclusion_rule (all : bool) (packageJson : Manifest)
  (packageLock : JS.value) (packageName installed : string) :
  In packageName (map fst (mergedDependencies packageJson)) ->
  getInstalledVersion packageName packageLock = JS.Str installed ->
  valid installed <> None ->
  valid (fst (getInstallableVersion env packageName packageJson)) <> None ->
  valid (fst (getLatestVersion env packageName "latest")) <> None ->
  ((exists r,
      In (DataRow r) (fst (compareVersions env all packageJson packageLock)) /\
      rowName r = packageName)
   <->
   all = true \/
   hasInstalledChanged installed
     (fst (getInstallableVersion env packageName packageJson)) = true \/
   hasLatestChanged installed
     (fst (getLatestVersion env packageName "latest")) = true).
Proof.
  intros Hdecl Hi Ha Hb Hc. split.
  - intros (r & Hr & Hname).
    apply report_row_inv in Hr as (range & a & _ & Hi' & _ & _ & _ & Hinc & _).
    rewrite Hname in *. rewrite Hi in Hi'. injection Hi' as <-.
    unfold included in Hinc.
    apply orb_true_iff in Hinc as [Hinc|Hinc]; [|now right; left].
    apply orb_true_iff in Hinc as [Hinc|Hinc]; [now left|now right; right].
  - intros Hwhy.
    apply in_map_iff in Hdecl as ([name range] & Hfst & Hentry).
    simpl in Hfst. subst name.
    pose proof (rowsOf_classified all packageJson packageLock packageName range
                  installed Hi Ha Hb Hc) as Hrows.
    assert (included all installed
              (fst (getInstallableVersion env packageName packageJson))
              (fst (getLatestVersion env packageName "latest")) = true) as Hinc.
    { unfold included. destruct Hwhy as [->|[->| ->]];
        [reflexivity|apply orb_true_r|].
      now rewrite orb_true_r. }
    rewrite Hinc in Hrows.
    eexists. split.
    + apply compareVersions_rows. exists (packageName, range).
      split; [exact Hentry|]. rewrite Hrows. now left.
    + apply makeRow_name.
Qed.

(** C6.  A row of the report is always the row of a declared package whose
    installed, installable and latest versions are all three valid, and its
    cells are made of these versions; a declared package with a version
    that is not valid (a sentinel, for one) has no row, whatever the
    show-all flag, and a warning names it; so it is for a package at which
    the lockfile reader throws. *)
Theorem rows_have_valid_versions (all : bool) (packageJson : Manifest)
  (packageLock : JS.value) :
  (forall r,
     In (DataRow r) (fst (compareVersions env all packageJson packageLock)) ->
     exists versionRange installed,
       In (rowName r, versionRange) (mergedDependencies packageJson) /\
       getInstalledVersion (rowName r) packageLock = JS.Str installed /\
       valid installed <> None /\
       valid (fst (getInstallableVersion env (rowName r) packageJson)) <> None /\
       valid (fst (getLatestVersion env (rowName r) "latest")) <> None /\
       r = makeRow (rowName r) (dependencyTypeOf packageJson (rowName r))
             installed
             (fst (getInstallableVersion env (rowName r) packageJson))
             (fst (getLatestVersion env (rowName r) "latest")) versionRange) /\
  (forall packageName versionRange installedVersion,
     In (packageName, versionRange) (mergedDependencies packageJson) ->
     getInstalledVersion packageName packageLock = JS.Ok installedVersion ->
     isValid installedVersion = false \/
     valid (fst (getInstallableVersion env packageName packageJson)) = None \/
     valid (fst (getLatestVersion env packageName "latest")) = None ->
     (forall r,
        In (DataRow r) (fst (compareVersions env all packageJson packageLock)) ->
        rowName r <> packageName) /\
     (In (skippedUnable packageName)
         (snd (compareVersions env all packageJson packageLock)) \/
      In (skippedInvalid packageName)
         (snd (compareVersions env all packageJson packageLock)))) /\
  (forall packageName versionRange message,
     In (packageName, versionRange) (mergedDependencies packageJson) ->
     getInstalledVersion packageName packageLock = JS.Throw message ->
     (forall r,
        In (DataRow r) (fst (compareVersions env all packageJson packageLock)) ->
        rowName r <> packageName) /\
     In ("Error processing package " +++ packageName +++ ": " +++ message)
        (snd (compareVersions env all packageJson packageLock))).
Proof.
  split; [|split].
  - intros r Hr.
    apply report_row_inv in Hr
      as (range & installed & He & Hi & Ha & Hb & Hc & _ & Hrow).
    exists range, installed. repeat split; assumption.
  - intros packageName versionRange installedVersion. apply skipped_entry.
  - intros packageName versionRange message. apply thrown_entry.
Qed.

(** ** Classification *)

(** C2 (as the script has it).  The two changed flags are string
    inequality on the version strings as they were read, with no
    normalisation: a flag is false exactly when the two strings are the
    same, which for strings already in normalised form is to say that they
    normalise to the same version; the major flag is true exactly when the
    major numbers differ. *)
Theorem changed_flags (installed installable latest : string) :
  (hasInstalledChanged installed installable = false <-> installed = installable) /\
  (hasLatestChanged installed latest = false <-> installed = latest) /\
  (isMajorChange installed latest = true <-> major installed <> major latest) /\
  (valid installed = Some installed -> valid installable = Some installable ->
   (hasInstalledChanged installed installable = false <->
    valid installed = valid installable)) /\
  (valid installed = Some installed -> valid latest = Some latest ->
   (hasLatestChanged installed latest = false <-> valid installed = valid latest)).
Proof.
  assert (forall a b, negb (String.eqb a b) = false <-> a = b) as Hneq.
  { intros a b. rewrite negb_false_iff. apply String.eqb_eq. }
  assert (forall a b, valid a = Some a -> valid b = Some b ->
                      (a = b <-> valid a = valid b)) as Hnorm.
  { intros a b Ha Hb. split; [now intros ->|].
    rewrite Ha, Hb. congruence. }
  unfold hasInstalledChanged, hasLatestChanged, isMajorChange.
  split; [apply Hneq|]. split; [apply Hneq|]. split.
  - rewrite negb_true_iff. apply Z.eqb_neq.
  - split; intros Ha Hb; rewrite Hneq; now apply Hnorm.
Qed.

Lemma colorize_latest (installed installable latest versionRange : string) :
  hasLatestChanged installed latest = true ->
  colorize installed installable latest versionRange =
  (chalk (if isMajorChange installed latest then red else yellow) installed,
   chalk yellow installable ++ rangeAnnotation versionRange,
   chalk (if isMajorChange installed latest then red else yellow) latest
     ++ diffAnnotation (diff installed latest)).
Proof. unfold colorize. now intros ->. Qed.

Lemma colorize_installable (installed installable latest versionRange : string) :
  hasLatestChanged installed latest = false ->
  hasInstalledChanged installed installable = true ->
  colorize installed installable latest versionRange =
  (chalk yellow installed,
   (chalk yellow installable ++ rangeAnnotation versionRange)
     ++ diffAnnotation (diff installed installable),
   chalk green latest).
Proof. unfold colorize. now intros -> ->. Qed.

Lemma colorize_unchanged (installed installable latest versionRange : string) :
  hasLatestChanged installed latest = false ->
  hasInstalledChanged installed installable = false ->
  colorize installed installable latest versionRange =
  (chalk green installed,
   chalk green installable ++ rangeAnnotation versionRange,
   chalk green latest).
Proof. unfold colorize. now intros -> ->. Qed.

Lemma makeRow_cells (packageName dependencyType a b c versionRange : string) :
  (rowInstalled (makeRow packageName dependencyType a b c versionRange),
   rowInstallable (makeRow packageName dependencyType a b c versionRange),
   rowLatest (makeRow packageName dependencyType a b c versionRange)) =
  colorize a b c versionRange.
Proof.
  unfold makeRow. destruct (colorize a b c versionRange) as [[x y] z].
  reflexivity.
Qed.

(** C7.  The cells of every row follow the precedence of the script.  When
    the latest version differs from the installed one, the installed and
    latest cells are red if the major numbers differ and yellow otherwise,
    and the latest cell ends with the kind [semver.diff] gives for
    installed and latest, in brackets and italic gray.  Otherwise, when the
    installable version differs, the installed and installable cells are
    yellow and the installable cell ends with the kind [semver.diff] gives
    for installed and installable.  Otherwise all three cells are green and
    no diff kind is shown.  The installable cell always shows the range of
    the entry after the version.  ([semver.diff] gives [null], printed as
    such, for two strings that denote the same version.) *)
Theorem severity_precedence (all : bool) (packageJson : Manifest)
  (packageLock : JS.value) (r : Row) :
  In (DataRow r) (fst (compareVersions env all packageJson packageLock)) ->
  exists versionRange installed,
    In (rowName r, versionRange) (mergedDependencies packageJson) /\
    getInstalledVersion (rowName r) packageLock = JS.Str installed /\
    (hasLatestChanged installed
       (fst (getLatestVersion env (rowName r) "latest")) = true ->
     rowInstalled r =
       [(if isMajorChange installed
               (fst (getLatestVersion env (rowName r) "latest"))
         then red else yellow, installed)] /\
     rowInstallable r =
       [(yellow, fst (getInstallableVersion env (rowName r) packageJson));
        (italic_gray, " (" +++ versionRange +++ ")")] /\
     rowLatest r =
       [(if isMajorChange installed
               (fst (getLatestVersion env (rowName r) "latest"))
         then red else yellow,
         fst (getLatestVersion env (rowName r) "latest"));
        (italic_gray,
         " (" +++ match diff installed
                          (fst (getLatestVersion env (rowName r) "latest")) with
                  | Some kind => kind
                  | None => "null"
                  end +++ ")")]) /\
    (hasLatestChanged installed
       (fst (getLatestVersion env (rowName r) "latest")) = false ->
     hasInstalledChanged installed
       (fst (getInstallableVersion env (rowName r) packageJson)) = true ->
     rowInstalled r = [(yellow, installed)] /\
     rowInstallable r =
       [(yellow, fst (getInstallableVersion env (rowName r) packageJson));
        (italic_gray, " (" +++ versionRange +++ ")");
        (italic_gray,
         " (" +++ match diff installed
                          (fst (getInstallableVersion env (rowName r) packageJson))
                  with
                  | Some kind => kind
                  | None => "null"
                  end +++ ")")] /\
     rowLatest r = [(green, fst (getLatestVersion env (rowName r) "latest"))]) /\
    (hasLatestChanged installed
       (fst (getLatestVersion env (rowName r) "latest")) = false ->
     hasInstalledChanged installed
       (fst (getInstallableVersion env (rowName r) packageJson)) = false ->
     rowInstalled r = [(green, installed)] /\
     rowInstallable r =
       [(green, fst (getInstallableVersion env (rowName r) packageJson));
        (italic_gray, " (" +++ versionRange +++ ")")] /\
     rowLatest r = [(green, fst (getLatestVersion env (rowName r) "latest"))]).
Proof.
  intros Hr.
  apply report_row_inv in Hr
    as (range & installed & He & Hi & _ & _ & _ & _ & Hrow).
  exists range, installed. split; [exact He|]. split; [exact Hi|].
  set (b := fst (getInstallableVersion env (rowName r) packageJson)) in *.
  set (c := fst (getLatestVersion env (rowName r) "latest")) in *.
  pose proof (makeRow_cells (rowName r)
                (dependencyTypeOf packageJson (rowName r)) installed b c range)
    as Hcells.
  rewrite <- Hrow in Hcells.
  split; [|split].
  - intros Hl. rewrite (colorize_latest _ _ _ _ Hl) in Hcells.
    injection Hcells as -> -> ->. repeat split.
  - intros Hl Hc. rewrite (colorize_installable _ _ _ _ Hl Hc) in Hcells.
    injection Hcells as -> -> ->. repeat split.
  - intros Hl Hc. rewrite (colorize_unchanged _ _ _ _ Hl Hc) in Hcells.
    injection Hcells as -> -> ->. repeat split.
Qed.

(** ** The empty report *)

Lemma flat_map_nil {A B : Type} (f : A -> list B) (l : list A) :
  (forall x, In x l -> f x = []) -> flat_map f l = [].
Proof.
  induction l as [|x l IH]; simpl; intros H; [reflexivity|].
  rewrite (H x) by now left. apply IH. intros y Hy. apply H. now right.
Qed.

Lemma compareVersions_empty (all : bool) (packageJson : Manifest)
  (packageLock : JS.value) :
  (forall entry, In entry (mergedDependencies packageJson) ->
                 rowsOf all packageJson packageLock entry = []) ->
  fst (compareVersions env all packageJson packageLock) = [noDifferences].
Proof.
  intros Hnone. unfold compareVersions, bind.
  pose proof (forEachPackage_table all packageJson packageLock
                (mergedDependencies packageJson) []) as Ht.
  destruct (forEachPackage _ _ _ _ _ _) as [t w]. simpl in Ht.
  rewrite (flat_map_nil _ _ Hnone) in Ht. subst t. reflexivity.
Qed.

Lemma compareVersions_one_row (packageJson : Manifest) (packageLock : JS.value)
  (packageName versionRange : string) (r : Row) :
  mergedDependencies packageJson = [(packageName, versionRange)] ->
  rowsOf true packageJson packageLock (packageName, versionRange) = [DataRow r] ->
  fst (compareVersions env true packageJson packageLock) = [DataRow r].
Proof.
  intros Hm Hrow. unfold compareVersions, bind.
  pose proof (forEachPackage_table true packageJson packageLock
                (mergedDependencies packageJson) []) as Ht.
  destruct (forEachPackage _ _ _ _ _ _) as [t w]. simpl in Ht.
  rewrite Hm in Ht. simpl in Ht. rewrite Hrow in Ht. subst t. reflexivity.
Qed.

(** C8 (as the script has it).  When no entry pushes a row, the report is
    exactly one row: a single green cell that says [No installable packages
    found. `npm ci` and `npm i` are the same.], centred, spanning the five
    columns of the table.  So it is, when the show-all flag is off, for a
    manifest that declares one package whose installed, installable and
    latest versions are one and the same valid version; when the flag is
    on, the report is the all-green row of that package instead. *)
Theorem no_differences_report :
  length tableHead = 5 /\
  (forall all packageJson packageLock,
     (forall entry, In entry (mergedDependencies packageJson) ->
                    rowsOf all packageJson packageLock entry = []) ->
     fst (compareVersions env all packageJson packageLock) =
     [SpanRow
        [(green,
          "No installable packages found. `npm ci` and `npm i` are the same.")]
        5 "center"]) /\
  (forall packageJson packageLock packageName versionRange v,
     mergedDependencies packageJson = [(packageName, versionRange)] ->
     getInstalledVersion packageName packageLock = JS.Str v ->
     fst (getInstallableVersion env packageName packageJson) = v ->
     fst (getLatestVersion env packageName "latest") = v ->
     valid v <> None ->
     fst (compareVersions env false packageJson packageLock) =
     [SpanRow
        [(green,
          "No installable packages found. `npm ci` and `npm i` are the same.")]
        5 "center"] /\
     fst (compareVersions env true packageJson packageLock) =
     [DataRow {| rowName := packageName;
                 rowType := [(cyan, dependencyTypeOf packageJson packageName)];
                 rowInstalled := [(green, v)];
                 rowInstallable :=
                   [(green, v); (italic_gray, " (" +++ versionRange +++ ")")];
                 rowLatest := [(green, v)] |}]).
Proof.
  split; [reflexivity|]. split; [exact compareVersions_empty|].
  intros packageJson packageLock packageName versionRange v Hm Hi Hb Hc Hv.
  split.
  - apply compareVersions_empty. rewrite Hm. intros entry [<-|[]].
    rewrite (rowsOf_classified false packageJson packageLock packageName
               versionRange v Hi); rewrite ?Hb, ?Hc; auto.
    unfold included, hasLatestChanged, hasInstalledChanged.
    now rewrite String.eqb_refl.
  - apply (compareVersions_one_row _ _ _ _ _ Hm).
    rewrite (rowsOf_classified true packageJson packageLock packageName
               versionRange v Hi); rewrite ?Hb, ?Hc; auto.
    cbn [included orb]. unfold makeRow, colorize, hasLatestChanged,
      hasInstalledChanged.
    now rewrite String.eqb_refl.
Qed.

(** ** The resolver *)

Lemma strings_filter_valid (l : list JS.value) :
  map JS.Str (JS.strings (filter isValid l)) = filter isValid l.
Proof.
  induction l as [|v l IH]; simpl; [reflexivity|].
  destruct (isValid v) eqn:Hv; [|exact IH].
  apply isValid_is_string in Hv as (s & -> & _). simpl. now rewrite IH.
Qed.

Lemma in_strings (l : list JS.value) (s : string) :
  In s (JS.strings l) <-> In (JS.Str s) l.
Proof.
  induction l as [|v l IH]; simpl; [tauto|].
  destruct v; simpl; rewrite IH; intuition (try discriminate; try congruence).
Qed.

(** The candidates that are kept are valid versions. *)
Lemma validVersionsOf_valid (output v : string) :
  In v (validVersionsOf env output) -> valid v <> None.
Proof.
  unfold validVersionsOf. rewrite in_strings, filter_In.
  intros [_ H]. now apply isValid_Str.
Qed.

Lemma valid_not_empty_string (v : string) : valid v <> None -> v <> EmptyString.
Proof.
  intros Hv ->. apply Hv. now apply no_digit_invalid.
Qed.

(** What the [||] of lines 85-88 selects among valid candidates. *)
Lemma pickVersion_spec (validVersions : list string) (versionRange : string) :
  (forall v, In v validVersions -> valid v <> None) ->
  pickVersion validVersions versionRange =
  match maxSatisfying validVersions versionRange with
  | Some v => v
  | None => last validVersions EmptyString
  end.
Proof.
  intros Hvalid. unfold pickVersion, semver_maxSatisfying.
  destruct (maxSatisfying validVersions versionRange) as [v|] eqn:Hmax;
    [|reflexivity].
  apply maxSatisfying_in, Hvalid, valid_not_empty_string in Hmax.
  apply String.eqb_neq in Hmax. now rewrite Hmax.
Qed.

Lemma getLatestVersion_output (packageName versionRange stdout : string) :
  execSync env (npmShow packageName versionRange) = Output stdout ->
  getLatestVersion env packageName versionRange =
  match validVersionsOf env (Text.trim stdout) with
  | [] => ("Unable to determine",
           ["No valid versions found for " +++ packageName])
  | _ :: _ =>
      (match maxSatisfying (validVersionsOf env (Text.trim stdout)) versionRange with
       | Some v => v
       | None => last (validVersionsOf env (Text.trim stdout)) EmptyString
       end, [])
  end.
Proof.
  intros Hexec. unfold getLatestVersion. cbn [JS.toString]. rewrite Hexec.
  pose proof (validVersionsOf_valid (Text.trim stdout)) as Hvalid.
  destruct (validVersionsOf env (Text.trim stdout)) as [|v vs]; [reflexivity|].
  cbn [length Nat.eqb]. unfold ret. now rewrite pickVersion_spec.
Qed.

(** C3 (as the script has it).  For an answer of the registry: the answer
    is turned into a list, of which only the valid versions are kept, in
    their order; when some are left, the resolver returns the candidate
    [semver.maxSatisfying] selects, which satisfies the range and is a
    greatest such candidate; and when no candidate satisfies the range, it
    returns the entry that stands last in the filtered list. *)
Theorem resolver_selection (packageName versionRange stdout : string) :
  execSync env (npmShow packageName versionRange) = Output stdout ->
  validVersionsOf env (Text.trim stdout) <> [] ->
  map JS.Str (validVersionsOf env (Text.trim stdout)) =
    filter isValid (parseVersions env (Text.trim stdout)) /\
  match maxSatisfying (validVersionsOf env (Text.trim stdout)) versionRange with
  | Some v =>
      fst (getLatestVersion env packageName versionRange) = v /\
      In v (validVersionsOf env (Text.trim stdout)) /\
      satisfies v versionRange = true /\
      (forall w, In w (validVersionsOf env (Text.trim stdout)) ->
                 satisfies w versionRange = true -> compare w v <> Gt)
  | None =>
      (forall w, In w (validVersionsOf env (Text.trim stdout)) ->
                 satisfies w versionRange = false) /\
      exists front,
        validVersionsOf env (Text.trim stdout) =
        front ++ [fst (getLatestVersion env packageName versionRange)]
  end.
Proof.
  intros Hexec Hsome.
  split; [apply strings_filter_valid|].
  rewrite (getLatestVersion_output _ _ _ Hexec).
  destruct (validVersionsOf env (Text.trim stdout)) as [|v0 vs] eqn:Hvs;
    [contradiction|].
  destruct (maxSatisfying (v0 :: vs) versionRange) as [v|] eqn:Hmax; cbn [fst].
  - split; [reflexivity|]. split; [now apply maxSatisfying_in in Hmax|].
    split; [now apply maxSatisfying_satisfies in Hmax|].
    intros w. now apply maxSatisfying_max.
  - split; [intros w; now apply maxSatisfying_none|].
    exists (removelast (v0 :: vs)). now apply app_removelast_last.
Qed.

(** C4 (as the script has it).  The resolver is a total function.  When
    the command fails, it warns and returns [Error fetching version].
    When the command prints something that is not JSON, the candidates are
    the quoted texts of its lines.  When no candidate is a valid version,
    it warns and returns [Unable to determine].  Otherwise it returns one
    of the valid candidates and warns of nothing. *)
Theorem resolver_returns (packageName versionRange : string) :
  match execSync env (npmShow packageName versionRange) with
  | Failure message =>
      getLatestVersion env packageName versionRange =
      ("Error fetching version",
       ["Error fetching version for " +++ packageName +++ ": " +++ message])
  | Output stdout =>
      (JSON_parse env (Text.trim stdout) = None ->
       parseVersions env (Text.trim stdout) =
       map JS.Str (Text.quoted_lines (Text.split_lines (Text.trim stdout)))) /\
      (validVersionsOf env (Text.trim stdout) = [] ->
       getLatestVersion env packageName versionRange =
       ("Unable to determine", ["No valid versions found for " +++ packageName])) /\
      (validVersionsOf env (Text.trim stdout) <> [] ->
       snd (getLatestVersion env packageName versionRange) = [] /\
       In (fst (getLatestVersion env packageName versionRange))
          (validVersionsOf env (Text.trim stdout)) /\
       valid (fst (getLatestVersion env packageName versionRange)) <> None)
  end.
Proof.
  destruct (execSync env (npmShow packageName versionRange))
    as [stdout|message] eqn:Hexec.
  - split; [|split].
    + intros Hjson. unfold parseVersions. now rewrite Hjson.
    + intros Hnone. rewrite (getLatestVersion_output _ _ _ Hexec).
      now rewrite Hnone.
    + intros Hsome. rewrite (getLatestVersion_output _ _ _ Hexec).
      pose proof (validVersionsOf_valid (Text.trim stdout)) as Hvalid.
      destruct (validVersionsOf env (Text.trim stdout)) as [|v0 vs] eqn:Hvs;
        [contradiction|].
      cbn [fst snd]. split; [reflexivity|].
      assert (In (match maxSatisfying (v0 :: vs) versionRange with
                  | Some v => v
                  | None => last (v0 :: vs) EmptyString
                  end) (v0 :: vs)) as Hin.
      { destruct (maxSatisfying (v0 :: vs) versionRange) as [v|] eqn:Hmax.
        - now apply maxSatisfying_in in Hmax.
        - rewrite (app_removelast_last EmptyString Hsome) at 2.
          apply in_or_app. right. now left. }
      split; [exact Hin|now apply Hvalid].
  - unfold getLatestVersion. cbn [JS.toString]. now rewrite Hexec.
Qed.

(** ** Names declared in more than one category *)

Lemma lookup_assign (k v : string) (o : StrMap) (k' : string) :
  JS.lookup k' (assign k v o) =
  if String.eqb k k' then Some v else JS.lookup k' o.
Proof.
  induction o as [|[k0 v0] o IH]; simpl; [reflexivity|].
  destruct (String.eqb_spec k0 k) as [->|Hne]; simpl.
  - destruct (String.eqb_spec k k'); reflexivity.
  - rewrite IH. destruct (String.eqb_spec k0 k') as [->|]; [|reflexivity].
    destruct (String.eqb_spec k k'); [congruence|reflexivity].
Qed.

Lemma lastAssigned_NoDup (k : string) (m : StrMap) :
  NoDup (map fst m) -> lastAssigned k m = JS.lookup k m.
Proof.
  induction m as [|[k0 v0] m IH]; simpl; intros Hnd; [reflexivity|].
  inversion Hnd as [|? ? Hnotin Hrest]; subst. rewrite (IH Hrest).
  destruct (String.eqb_spec k0 k) as [->|Hne].
  - destruct (JS.lookup k m) as [w|] eqn:Hl; [|reflexivity].
    exfalso. apply Hnotin. clear -Hl.
    induction m as [|[k1 v1] m IH]; simpl in *; [discriminate|].
    destruct (String.eqb_spec k1 k); [now left|right; auto].
  - now destruct (JS.lookup k m).
Qed.

Lemma lookup_spread (acc : StrMap) (m : StrMap) (k : string) :
  JS.lookup k (spread acc (Some m)) =
  match lastAssigned k m with
  | Some v => Some v
  | None => JS.lookup k acc
  end.
Proof.
  simpl. revert acc.
  induction m as [|[k0 v0] m IH]; simpl; intros acc; [reflexivity|].
  rewrite IH, lookup_assign.
  destruct (lastAssigned k m); [reflexivity|].
  now destruct (String.eqb k0 k).
Qed.

Lemma lookup_In (k v : string) (o : StrMap) :
  NoDup (map fst o) -> (In (k, v) o <-> JS.lookup k o = Some v).
Proof.
  induction o as [|[k0 v0] o IH]; simpl; intros Hnd.
  - split; [tauto|discriminate].
  - inversion Hnd as [|? ? Hnotin Hrest]; subst.
    destruct (String.eqb_spec k0 k) as [->|Hne].
    + split.
      * intros [[= ->]|Hin]; [reflexivity|].
        exfalso. apply Hnotin. apply in_map_iff. now exists (k, v).
      * intros [= ->]. now left.
    + rewrite <- (IH Hrest). split.
      * intros [[= -> ->]|Hin]; [congruence|exact Hin].
      * intros Hin. now right.
Qed.

Lemma lookup_spread_opt (acc : StrMap) (o : option StrMap) (k : string) :
  JS.lookup k (spread acc o) =
  match lastAssignedIn o k with
  | Some v => Some v
  | None => JS.lookup k acc
  end.
Proof.
  destruct o as [m|]; [apply lookup_spread|reflexivity].
Qed.

(** The range an entry of the merged object carries is the one of the last
    category that declares the name: a later spread overwrites the value. *)
Lemma mergedDependencies_lookup (packageJson : Manifest) (k : string) :
  JS.lookup k (mergedDependencies packageJson) =
  match lastAssignedIn (peerDependencies packageJson) k with
  | Some v => Some v
  | None =>
      match lastAssignedIn (devDependencies packageJson) k with
      | Some v => Some v
      | None => lastAssignedIn (dependencies packageJson) k
      end
  end.
Proof.
  unfold mergedDependencies. rewrite !lookup_spread_opt. simpl.
  now destruct (lastAssignedIn (dependencies packageJson) k).
Qed.

Lemma merged_range_is_last (deps dev : StrMap) (packageName r1 r2 : string) :
  NoDup (map fst deps) -> NoDup (map fst dev) ->
  In (packageName, r1) deps -> In (packageName, r2) dev ->
  In (packageName, r2)
     (mergedDependencies {| dependencies := Some deps;
                            devDependencies := Some dev;
                            peerDependencies := None |}).
Proof.
  intros Hd1 Hd2 H1 H2.
  apply lookup_In; [apply mergedDependencies_NoDup|].
  rewrite mergedDependencies_lookup.
  cbn [dependencies devDependencies peerDependencies lastAssignedIn].
  rewrite (lastAssigned_NoDup _ _ Hd2).
  apply (lookup_In _ _ _ Hd2) in H2. now rewrite H2.
Qed.

(** Reading a name that a category declares gives the range it declares. *)
Lemma lookup_objectOf (m : StrMap) (k : string) :
  JS.own (objectOf m) k = option_map JS.Str (JS.lookup k m).
Proof.
  unfold objectOf. cbn [JS.own].
  induction m as [|[k0 v0] m IH]; simpl; [reflexivity|].
  now destruct (String.eqb k0 k).
Qed.

Lemma opt_get_own (m : StrMap) (k r : string) :
  JS.lookup k m = Some r -> opt_get (Some m) k = JS.Str r.
Proof.
  intros H. unfold opt_get, JS.member. now rewrite lookup_objectOf, H.
Qed.

(** The installable version of such a name is resolved with the range of
    the first category, and the name is attributed to it. *)
Lemma installable_range_is_first (deps dev : StrMap) (packageName r1 : string) :
  NoDup (map fst deps) -> In (packageName, r1) deps -> r1 <> EmptyString ->
  getInstallableVersion env packageName
    {| dependencies := Some deps; devDependencies := Some dev;
       peerDependencies := None |} =
  getLatestVersion env packageName r1 /\
  dependencyTypeOf
    {| dependencies := Some deps; devDependencies := Some dev;
       peerDependencies := None |} packageName = "dependencies".
Proof.
  intros Hd H1 Hne. apply (lookup_In _ _ _ Hd) in H1.
  apply String.eqb_neq in Hne.
  unfold getInstallableVersion, dependencyTypeOf, JS.or_.
  cbn [dependencies devDependencies peerDependencies].
  rewrite (opt_get_own _ _ _ H1). cbn [JS.truthy].
  repeat (rewrite Hne; cbn [negb JS.truthy]). split; reflexivity.
Qed.

(** * Further properties of the script *)

Lemma bind_log_l {A B : Type} (m : Console A) (k : A -> Console B)
  (line : string) :
  In line (snd m) -> In line (snd (bind m k)).
Proof.
  unfold bind. destruct m as [a w]. destruct (k a) as [b w']. simpl.
  intros H. apply in_or_app. now left.
Qed.

(** ** The installable version and the type label *)

Lemma getInstallableVersion_not_found (packageName : string)
  (packageJson : Manifest) :
  JS.truthy (opt_get (dependencies packageJson) packageName) = false ->
  JS.truthy (opt_get (devDependencies packageJson) packageName) = false ->
  JS.truthy (opt_get (peerDependencies packageJson) packageName) = false ->
  getInstallableVersion env packageName packageJson =
  ("Not found in package.json", [notFound packageName]).
Proof.
  intros H1 H2 H3. unfold getInstallableVersion, JS.or_. cbv zeta.
  repeat (rewrite ?H1, ?H2, ?H3; cbv iota). reflexivity.
Qed.

Lemma getInstallableVersion_deps (packageName : string) (packageJson : Manifest) :
  JS.truthy (opt_get (dependencies packageJson) packageName) = true ->
  getInstallableVersion env packageName packageJson =
  getLatestVersion env packageName
    (opt_get (dependencies packageJson) packageName).
Proof.
  intros H1. unfold getInstallableVersion, JS.or_. cbv zeta.
  repeat (rewrite ?H1; cbv iota). reflexivity.
Qed.

Lemma getInstallableVersion_dev (packageName : string) (packageJson : Manifest) :
  JS.truthy (opt_get (dependencies packageJson) packageName) = false ->
  JS.truthy (opt_get (devDependencies packageJson) packageName) = true ->
  getInstallableVersion env packageName packageJson =
  getLatestVersion env packageName
    (opt_get (devDependencies packageJson) packageName).
Proof.
  intros H1 H2. unfold getInstallableVersion, JS.or_. cbv zeta.
  repeat (rewrite ?H1, ?H2; cbv iota). reflexivity.
Qed.

Lemma getInstallableVersion_peer (packageName : string) (packageJson : Manifest) :
  JS.truthy (opt_get (dependencies packageJson) packageName) = false ->
  JS.truthy (opt_get (devDependencies packageJson) packageName) = false ->
  JS.truthy (opt_get (peerDependencies packageJson) packageName) = true ->
  getInstallableVersion env packageName packageJson =
  getLatestVersion env packageName
    (opt_get (peerDependencies packageJson) packageName).
Proof.
  intros H1 H2 H3. unfold getInstallableVersion, JS.or_. cbv zeta.
  repeat (rewrite ?H1, ?H2, ?H3; cbv iota). reflexivity.
Qed.

(** X1.  The type label of a package and the range its installable version
    is resolved with come from the same category, and it is the first of
    [dependencies], [devDependencies], [peerDependencies] whose read of the
    name is truthy: a later category is used only when the reads of all
    earlier ones are falsy.  When no read is truthy the label is [unknown],
    the registry is not asked and the result is the sentinel [Not found in
    package.json] with a warning.  The read of a name that a category
    declares is the declared range, truthy exactly when it is not the
    empty string. *)
Theorem type_label_matches_resolution (packageJson : Manifest)
  (packageName : string) :
  (JS.truthy (opt_get (dependencies packageJson) packageName) = true ->
   dependencyTypeOf packageJson packageName = "dependencies" /\
   getInstallableVersion env packageName packageJson =
   getLatestVersion env packageName
     (opt_get (dependencies packageJson) packageName)) /\
  (JS.truthy (opt_get (dependencies packageJson) packageName) = false ->
   JS.truthy (opt_get (devDependencies packageJson) packageName) = true ->
   dependencyTypeOf packageJson packageName = "devDependencies" /\
   getInstallableVersion env packageName packageJson =
   getLatestVersion env packageName
     (opt_get (devDependencies packageJson) packageName)) /\
  (JS.truthy (opt_get (dependencies packageJson) packageName) = false ->
   JS.truthy (opt_get (devDependencies packageJson) packageName) = false ->
   JS.truthy (opt_get (peerDependencies packageJson) packageName) = true ->
   dependencyTypeOf packageJson packageName = "peerDependencies" /\
   getInstallableVersion env packageName packageJson =
   getLatestVersion env packageName
     (opt_get (peerDependencies packageJson) packageName)) /\
  (JS.truthy (opt_get (dependencies packageJson) packageName) = false ->
   JS.truthy (opt_get (devDependencies packageJson) packageName) = false ->
   JS.truthy (opt_get (peerDependencies packageJson) packageName) = false ->
   dependencyTypeOf packageJson packageName = "unknown" /\
   getInstallableVersion env packageName packageJson =
   ("Not found in package.json", [notFound packageName])) /\
  (forall (declared : StrMap) (range : string),
     JS.lookup packageName declared = Some range ->
     opt_get (Some declared) packageName = JS.Str range /\
     (JS.truthy (opt_get (Some declared) packageName) = true <->
      range <> EmptyString)).
Proof.
  unfold dependencyTypeOf. split; [|split; [|split; [|split]]].
  - intros H1. rewrite H1. split; [reflexivity|].
    now apply getInstallableVersion_deps.
  - intros H1 H2. rewrite H1, H2. split; [reflexivity|].
    now apply getInstallableVersion_dev.
  - intros H1 H2 H3. rewrite H1, H2, H3. split; [reflexivity|].
    now apply getInstallableVersion_peer.
  - intros H1 H2 H3. rewrite H1, H2, H3. split; [reflexivity|].
    now apply getInstallableVersion_not_found.
  - intros declared r Hr. rewrite (opt_get_own _ _ _ Hr). split; [reflexivity|].
    cbn [JS.truthy]. rewrite negb_true_iff. apply String.eqb_neq.
Qed.

Lemma makeRow_type (packageName dependencyType a b c versionRange : string) :
  rowType (makeRow packageName dependencyType a b c versionRange) =
  chalk cyan dependencyType.
Proof.
  unfold makeRow. destruct (colorize a b c versionRange) as [[x y] z].
  reflexivity.
Qed.

Lemma dependencyTypeOf_cases (packageJson : Manifest) (packageName : string) :
  dependencyTypeOf packageJson packageName = "dependencies" \/
  dependencyTypeOf packageJson packageName = "devDependencies" \/
  dependencyTypeOf packageJson packageName = "peerDependencies" \/
  (JS.truthy (opt_get (dependencies packageJson) packageName) = false /\
   JS.truthy (opt_get (devDependencies packageJson) packageName) = false /\
   JS.truthy (opt_get (peerDependencies packageJson) packageName) = false).
Proof.
  unfold dependencyTypeOf.
  destruct (JS.truthy (opt_get (dependencies packageJson) packageName));
    [now left|].
  destruct (JS.truthy (opt_get (devDependencies packageJson) packageName));
    [now right; left|].
  destruct (JS.truthy (opt_get (peerDependencies packageJson) packageName));
    [now right; right; left|].
  right; right; right. auto.
Qed.

(** X2.  The label [unknown] is never shown: the type cell of every row of
    the report names one of the three categories of the manifest. *)
Theorem rows_never_unknown_type (all : bool) (packageJson : Manifest)
  (packageLock : JS.value) (r : Row) :
  In (DataRow r) (fst (compareVersions env all packageJson packageLock)) ->
  rowType r = chalk cyan "dependencies" \/
  rowType r = chalk cyan "devDependencies" \/
  rowType r = chalk cyan "peerDependencies".
Proof.
  intros Hr.
  apply report_row_inv in Hr
    as (range & installed & _ & _ & _ & Hb & _ & _ & Hrow).
  rewrite Hrow, makeRow_type.
  destruct (dependencyTypeOf_cases packageJson (rowName r))
    as [->|[->|[->|(H1 & H2 & H3)]]]; auto.
  exfalso. apply Hb.
  rewrite (getInstallableVersion_not_found _ _ H1 H2 H3).
  now apply no_digit_invalid.
Qed.

(** X3.  A declared package for which the read of its name is falsy in
    each of the three categories (its range is the empty string wherever
    it is declared, and no category object inherits a member of that name)
    is treated as not found: with a lockfile that is truthy, the script
    warns that the package is not in [package.json], and the package has no
    row, whatever the show-all flag. *)
Theorem empty_range_is_skipped (all : bool) (packageJson : Manifest)
  (packageLock : JS.value) (packageName versionRange : string) :
  In (packageName, versionRange) (mergedDependencies packageJson) ->
  JS.truthy packageLock = true ->
  JS.truthy (opt_get (dependencies packageJson) packageName) = false ->
  JS.truthy (opt_get (devDependencies packageJson) packageName) = false ->
  JS.truthy (opt_get (peerDependencies packageJson) packageName) = false ->
  (forall r, In (DataRow r) (fst (compareVersions env all packageJson packageLock)) ->
             rowName r <> packageName) /\
  In (notFound packageName)
     (snd (compareVersions env all packageJson packageLock)).
Proof.
  intros Hentry Hlock H1 H2 H3.
  pose proof (getInstallableVersion_not_found _ _ H1 H2 H3) as Hnf.
  pose proof (getInstalledVersion_returns packageName _ Hlock) as Hinst.
  split.
  - apply (skipped_entry all packageJson packageLock packageName versionRange _
             Hentry Hinst).
    right; left. rewrite Hnf. now apply no_digit_invalid.
  - rewrite compareVersions_warnings. apply in_flat_map.
    exists (packageName, versionRange). split; [exact Hentry|].
    unfold processPackage. rewrite Hinst.
    apply bind_log_l. rewrite Hnf. now left.
Qed.

(** ** Lockfile entries without a version *)

(** Nothing is found in a value that is falsy. *)
Lemma field_falsy (v : JS.value) (k : string) :
  JS.truthy v = false -> JS.truthy (JS.field v k) = false.
Proof.
  destruct v as [| |b|n|s|a|o|f]; try discriminate; try reflexivity.
  intros Hs. destruct s; [|discriminate Hs].
  unfold JS.field, JS.own.
  destruct (String.eqb k "length"); [reflexivity|].
  now destruct (JS.array_index k) as [[|i]|].
Qed.

Lemma field_truthy (v : JS.value) (k : string) :
  JS.truthy (JS.field v k) = true -> JS.truthy v = true.
Proof.
  intros H. destruct (JS.truthy v) eqn:Hv; [reflexivity|].
  now rewrite (field_falsy v k Hv) in H.
Qed.

(** X4.  An entry under [packages] that has no [version] (as the entry of a
    linked package) hides the legacy entry: the reader returns [undefined]
    whatever [dependencies] holds, and the package, if declared, is skipped
    with a warning and has no row. *)
Theorem versionless_entry_is_skipped (all : bool) (packageJson : Manifest)
  (packageLock : JS.value) (packageName versionRange : string)
  (fields : list (string * JS.value)) :
  In (packageName, versionRange) (mergedDependencies packageJson) ->
  JS.field (JS.field packageLock "packages") ("node_modules/" +++ packageName)
    = JS.Obj fields ->
  JS.lookup "version" fields = None ->
  getInstalledVersion packageName packageLock = JS.undefined /\
  (forall r, In (DataRow r) (fst (compareVersions env all packageJson packageLock)) ->
             rowName r <> packageName) /\
  (In (skippedUnable packageName)
      (snd (compareVersions env all packageJson packageLock)) \/
   In (skippedInvalid packageName)
      (snd (compareVersions env all packageJson packageLock))).
Proof.
  intros Hentry Hnested Hversion.
  assert (JS.truthy (JS.field packageLock "packages") = true) as Hp.
  { apply (field_truthy _ ("node_modules/" +++ packageName)).
    now rewrite Hnested. }
  assert (getInstalledVersion packageName packageLock = JS.undefined) as Hinst.
  { rewrite getInstalledVersion_returns by now apply (field_truthy _ "packages").
    unfold nestedEntry. rewrite Hp, Hnested. cbn [JS.truthy].
    unfold JS.field. cbn [JS.own]. now rewrite Hversion. }
  split; [exact Hinst|].
  apply (skipped_entry all packageJson packageLock packageName versionRange _
           Hentry Hinst).
  left. reflexivity.
Qed.

(** ** Warnings *)

Lemma getLatestVersion_valid_quiet (packageName : string)
  (versionRange : JS.value) :
  valid (fst (getLatestVersion env packageName versionRange)) <> None ->
  snd (getLatestVersion env packageName versionRange) = [].
Proof.
  unfold getLatestVersion.
  destruct (execSync env (npmShow packageName (JS.toString versionRange)))
    as [stdout|message].
  - cbv zeta.
    destruct (validVersionsOf env (Text.trim stdout));
      cbn [length Nat.eqb fst snd bind warn ret]; [|reflexivity].
    intros H. exfalso. apply H. now apply no_digit_invalid.
  - cbn [fst bind warn ret].
    intros H. exfalso. apply H. now apply no_digit_invalid.
Qed.

Lemma getInstallableVersion_valid_quiet (packageName : string)
  (packageJson : Manifest) :
  valid (fst (getInstallableVersion env packageName packageJson)) <> None ->
  snd (getInstallableVersion env packageName packageJson) = [].
Proof.
  unfold getInstallableVersion. cbv zeta.
  destruct (JS.truthy _); cbn [negb].
  - apply getLatestVersion_valid_quiet.
  - cbn [fst bind warn ret]. intros H. exfalso. apply H.
    now apply no_digit_invalid.
Qed.

Lemma processPackage_quiet (all : bool) (packageJson : Manifest)
  (packageLock : JS.value) (packageName versionRange : string) :
  snd (processPackage env all packageJson packageLock []
         (packageName, versionRange)) = [] <->
  (exists installedVersion,
     getInstalledVersion packageName packageLock = JS.Ok installedVersion /\
     isValid installedVersion = true) /\
  valid (fst (getInstallableVersion env packageName packageJson)) <> None /\
  valid (fst (getLatestVersion env packageName "latest")) <> None.
Proof.
  split.
  - intros Hquiet.
    destruct (getInstalledVersion packageName packageLock)
      as [installedVersion|message] eqn:Hinst.
    + assert (forall P : Prop,
                isValid installedVersion = false \/
                valid (fst (getInstallableVersion env packageName packageJson))
                  = None \/
                valid (fst (getLatestVersion env packageName "latest")) = None ->
                P) as Hno.
      { intros P Hbad.
        destruct (processPackage_skips all packageJson packageLock packageName
                    versionRange installedVersion Hinst Hbad) as [_ [H|H]];
          rewrite Hquiet in H; destruct H. }
      destruct (isValid installedVersion) eqn:Ha; [|apply Hno; now left].
      split; [now exists installedVersion|].
      split; intros Hbad; apply Hno; auto.
    + rewrite (processPackage_throws all packageJson packageLock packageName
                 versionRange message Hinst) in Hquiet.
      discriminate Hquiet.
  - intros ((installedVersion & Hinst & Ha) & Hb & Hc).
    pose proof (getInstallableVersion_valid_quiet _ _ Hb) as Hw1.
    pose proof (getLatestVersion_valid_quiet _ _ Hc) as Hw2.
    apply isValid_is_string in Ha as (installed & Hi & Ha).
    unfold processPackage, bind, warn, ret. rewrite Hinst.
    destruct (getInstallableVersion env packageName packageJson) as [b w1].
    destruct (getLatestVersion env packageName "latest") as [c w2].
    cbn [fst snd] in *. subst w1 w2. rewrite Hi. cbn [JS.strict_eq_str].
    rewrite (valid_not_unable installed Ha), (valid_not_unable b Hb),
      (valid_not_unable c Hc). cbn [orb].
    apply isValid_Str in Ha, Hb, Hc. rewrite Ha, Hb, Hc. cbn [negb orb].
    destruct (included all installed b c); reflexivity.
Qed.

Lemma flat_map_eq_nil {A B : Type} (f : A -> list B) (l : list A) :
  flat_map f l = [] <-> forall x, In x l -> f x = [].
Proof.
  split; [|apply flat_map_nil].
  induction l as [|x l IH]; simpl; intros H y Hy; [destruct Hy|].
  apply app_eq_nil in H as [Hx Hl].
  destruct Hy as [<-|Hy]; [exact Hx|now apply IH].
Qed.

(** X5.  The script warns exactly about the packages it skips: the run
    writes no warning if and only if every declared package has an
    installed, an installable and a latest version that are all valid. *)
Theorem warnings_iff_skipped (all : bool) (packageJson : Manifest)
  (packageLock : JS.value) :
  snd (compareVersions env all packageJson packageLock) = [] <->
  forall packageName versionRange,
    In (packageName, versionRange) (mergedDependencies packageJson) ->
    (exists installedVersion,
       getInstalledVersion packageName packageLock = JS.Ok installedVersion /\
       isValid installedVersion = true) /\
    valid (fst (getInstallableVersion env packageName packageJson)) <> None /\
    valid (fst (getLatestVersion env packageName "latest")) <> None.
Proof.
  rewrite compareVersions_warnings, flat_map_eq_nil. split.
  - intros H packageName versionRange Hentry.
    apply (processPackage_quiet all packageJson packageLock packageName
             versionRange).
    now apply (H (packageName, versionRange)).
  - intros H [packageName versionRange] Hentry.
    apply processPackage_quiet. now apply (H packageName versionRange).
Qed.

(** ** The show-all flag *)

Lemma processPackage_warnings_all (all all' : bool) (packageJson : Manifest)
  (packageLock : JS.value) (entry : string * string) :
  snd (processPackage env all packageJson packageLock [] entry) =
  snd (processPackage env all' packageJson packageLock [] entry).
Proof.
  unfold processPackage, bind, warn, ret. destruct entry as [name range].
  destruct (getInstalledVersion name packageLock)
    as [installedVersion|message]; [|reflexivity].
  destruct (getInstallableVersion env name packageJson) as [b w1].
  destruct (getLatestVersion env name "latest") as [c w2].
  destruct (_ || _ || _); [reflexivity|].
  destruct (_ || _ || _); [reflexivity|].
  destruct installedVersion
    as [| |bit|num|installed|items|fields|native]; try reflexivity.
  destruct (included all installed b c), (included all' installed b c);
    reflexivity.
Qed.

(** X6.  The show-all flag changes no warning and removes no row: every
    row of the default report is, unchanged, a row of the show-all report,
    and a row that only the show-all report has is the row of a package
    whose three versions are the same string. *)
Theorem show_all_only_adds_rows (packageJson : Manifest) (packageLock : JS.value) :
  snd (compareVersions env true packageJson packageLock) =
  snd (compareVersions env false packageJson packageLock) /\
  (forall r,
     In (DataRow r) (fst (compareVersions env false packageJson packageLock)) ->
     In (DataRow r) (fst (compareVersions env true packageJson packageLock))) /\
  (forall r,
     In (DataRow r) (fst (compareVersions env true packageJson packageLock)) ->
     In (DataRow r) (fst (compareVersions env false packageJson packageLock)) \/
     (getInstalledVersion (rowName r) packageLock =
        JS.Str (fst (getInstallableVersion env (rowName r) packageJson)) /\
      fst (getInstallableVersion env (rowName r) packageJson) =
        fst (getLatestVersion env (rowName r) "latest"))).
Proof.
  split; [|split].
  - rewrite !compareVersions_warnings. apply flat_map_ext.
    intros entry. apply processPackage_warnings_all.
  - intros r Hr.
    apply report_row_inv in Hr
      as (range & installed & He & Hi & Ha & Hb & Hc & _ & Hrow).
    apply compareVersions_rows. exists (rowName r, range).
    split; [exact He|].
    rewrite (rowsOf_classified true packageJson packageLock (rowName r) range
               installed Hi Ha Hb Hc).
    cbn [included orb]. rewrite <- Hrow. now left.
  - intros r Hr.
    apply report_row_inv in Hr
      as (range & installed & He & Hi & Ha & Hb & Hc & _ & Hrow).
    destruct (included false installed
                (fst (getInstallableVersion env (rowName r) packageJson))
                (fst (getLatestVersion env (rowName r) "latest"))) eqn:Hinc.
    + left. apply compareVersions_rows. exists (rowName r, range).
      split; [exact He|].
      rewrite (rowsOf_classified false packageJson packageLock (rowName r) range
                 installed Hi Ha Hb Hc).
      rewrite Hinc, <- Hrow. now left.
    + right. unfold included, hasLatestChanged, hasInstalledChanged in Hinc.
      cbn [orb] in Hinc. apply orb_false_elim in Hinc as [Hl Hb'].
      apply negb_false_iff, String.eqb_eq in Hl, Hb'.
      rewrite Hi. split; congruence.
Qed.

(** ** The shape of the report *)

Lemma rowsOf_shape (all : bool) (packageJson : Manifest) (packageLock : JS.value)
  (entry : string * string) :
  rowsOf all packageJson packageLock entry = [] \/
  exists r, rowsOf all packageJson packageLock entry = [DataRow r].
Proof.
  unfold rowsOf, processPackage, bind, warn, ret. destruct entry as [name range].
  destruct (getInstalledVersion name packageLock)
    as [installedVersion|message]; [|now left].
  destruct (getInstallableVersion env name packageJson) as [b w1].
  destruct (getLatestVersion env name "latest") as [c w2].
  destruct (_ || _ || _); [now left|].
  destruct (_ || _ || _); [now left|].
  destruct installedVersion
    as [| |bit|num|installed|items|fields|native]; try now left.
  destruct (included all installed b c); [right; eexists; reflexivity|now left].
Qed.

(** X7.  The report is never empty, and the row that says there is nothing
    to install never stands beside a row of a package: the table is either
    that one row alone, or a non-empty list of rows of packages. *)
Theorem report_shape (all : bool) (packageJson : Manifest) (packageLock : JS.value) :
  fst (compareVersions env all packageJson packageLock) = [noDifferences] \/
  (fst (compareVersions env all packageJson packageLock) <> [] /\
   forall row, In row (fst (compareVersions env all packageJson packageLock)) ->
               exists r, row = DataRow r).
Proof.
  unfold compareVersions, bind.
  pose proof (forEachPackage_table all packageJson packageLock
                (mergedDependencies packageJson) []) as Ht.
  destruct (forEachPackage _ _ _ _ _ _) as [t w]. cbn [fst app] in Ht. subst t.
  destruct (flat_map _ _) as [|row rows] eqn:Hrows; cbn [length Nat.eqb fst ret];
    [now left|].
  right. split; [discriminate|].
  rewrite <- Hrows. intros row' Hin.
  apply in_flat_map in Hin as (entry & _ & Hin).
  destruct (rowsOf_shape all packageJson packageLock entry) as [H|[r H]];
    rewrite H in Hin.
  - destruct Hin.
  - destruct Hin as [<-|[]]. now exists r.
Qed.

(** X8.  When no command of the registry succeeds, no package has a row:
    the report is the one row that says there is nothing to install,
    whatever the manifest, the lockfile and the show-all flag. *)
Theorem registry_down_reports_no_differences (all : bool)
  (packageJson : Manifest) (packageLock : JS.value) :
  (forall command, exists message, execSync env command = Failure message) ->
  fst (compareVersions env all packageJson packageLock) = [noDifferences].
Proof.
  intros Hdown. apply compareVersions_empty. intros [name range] _.
  destruct (getInstalledVersion name packageLock)
    as [installedVersion|thrown] eqn:Hinst.
  - apply (processPackage_skips all packageJson packageLock name range
             installedVersion Hinst).
    right; right.
    destruct (Hdown (npmShow name "latest")) as [message Hexec].
    unfold getLatestVersion. cbn [JS.toString]. rewrite Hexec.
    cbn [fst bind warn ret]. now apply no_digit_invalid.
  - unfold rowsOf.
    now rewrite (processPackage_throws all packageJson packageLock name range
                   thrown Hinst).
Qed.

(** ** One row for a package, in the order of the manifest *)

Lemma dataRowNames_app (t1 t2 : list TableRow) :
  dataRowNames (t1 ++ t2) = dataRowNames t1 ++ dataRowNames t2.
Proof.
  induction t1 as [|[r|c n a] t1 IH]; simpl; [reflexivity| |exact IH].
  now rewrite IH.
Qed.

Lemma dataRowNames_rowsOf (all : bool) (packageJson : Manifest)
  (packageLock : JS.value) (packageName versionRange : string) :
  dataRowNames (rowsOf all packageJson packageLock (packageName, versionRange)) =
  if hasRow all packageJson packageLock packageName then [packageName] else [].
Proof.
  unfold hasRow, rowsOf, processPackage, bind, warn, ret.
  destruct (getInstalledVersion packageName packageLock)
    as [installedVersion|message]; [|reflexivity].
  destruct (getInstallableVersion env packageName packageJson) as [b w1].
  destruct (getLatestVersion env packageName "latest") as [c w2].
  destruct (_ || _ || _); [reflexivity|].
  destruct (_ || _ || _); [reflexivity|].
  destruct installedVersion
    as [| |bit|num|installed|items|fields|native]; try reflexivity.
  destruct (included all installed b c); [|reflexivity].
  cbn [fst app dataRowNames length Nat.eqb negb]. now rewrite makeRow_name.
Qed.

Lemma report_names (all : bool) (packageJson : Manifest) (packageLock : JS.value) :
  dataRowNames (fst (compareVersions env all packageJson packageLock)) =
  filter (hasRow all packageJson packageLock)
         (map fst (mergedDependencies packageJson)).
Proof.
  unfold compareVersions, bind.
  pose proof (forEachPackage_table all packageJson packageLock
                (mergedDependencies packageJson) []) as Ht.
  destruct (forEachPackage _ _ _ _ _ _) as [t w]. cbn [fst app] in Ht. subst t.
  assert (dataRowNames
            (flat_map (rowsOf all packageJson packageLock)
                      (mergedDependencies packageJson)) =
          filter (hasRow all packageJson packageLock)
                 (map fst (mergedDependencies packageJson))) as Hnames.
  { induction (mergedDependencies packageJson) as [|[name range] entries IH];
      [reflexivity|].
    cbn [flat_map map fst filter].
    rewrite dataRowNames_app, dataRowNames_rowsOf, IH.
    now destruct (hasRow all packageJson packageLock name). }
  destruct (flat_map _ _) as [|row rows]; cbn [length Nat.eqb fst ret];
    [|exact Hnames].
  rewrite <- Hnames. reflexivity.
Qed.

(** X9.  No package has two rows, and the rows stand in the order in which
    [Object.entries] gives the packages: the names of the rows are the
    names of the merged object that have a row, in its order. *)
Theorem one_row_per_package_in_order (all : bool) (packageJson : Manifest)
  (packageLock : JS.value) :
  NoDup (dataRowNames (fst (compareVersions env all packageJson packageLock))) /\
  dataRowNames (fst (compareVersions env all packageJson packageLock)) =
  filter (fun name =>
            existsb (String.eqb name)
              (dataRowNames (fst (compareVersions env all packageJson packageLock))))
         (map fst (mergedDependencies packageJson)).
Proof.
  rewrite report_names. split.
  - apply NoDup_filter, mergedDependencies_NoDup.
  - apply filter_ext_in. intros name Hname.
    destruct (hasRow all packageJson packageLock name) eqn:Hrow.
    + symmetry. apply existsb_exists. exists name.
      split; [|apply String.eqb_refl].
      apply filter_In. now split.
    + destruct (existsb _ _) eqn:Hex; [|reflexivity].
      apply existsb_exists in Hex as (x & Hx & Heq).
      apply String.eqb_eq in Heq. subst x.
      apply filter_In in Hx as [_ Hx]. congruence.
Qed.

(** ** The merged object *)

Lemma spread_keys (acc : StrMap) (o : option StrMap) (k : string) :
  In k (map fst (spread acc o)) <-> In k (map fst acc) \/ declaredIn o k.
Proof.
  destruct o as [m|]; simpl; [|tauto].
  revert acc. induction m as [|[k0 v0] m IH]; simpl; intros acc; [tauto|].
  rewrite IH, assign_keys. intuition congruence.
Qed.

(** X10.  The merged object has the names of the three maps of the
    manifest and no other, each of them once. *)
Theorem merged_names (packageJson : Manifest) :
  (forall k,
     In k (map fst (mergedDependencies packageJson)) <->
     declaredIn (dependencies packageJson) k \/
     declaredIn (devDependencies packageJson) k \/
     declaredIn (peerDependencies packageJson) k) /\
  NoDup (map fst (mergedDependencies packageJson)).
Proof.
  split; [|apply mergedDependencies_NoDup].
  intros k. unfold mergedDependencies. rewrite !spread_keys. simpl. tauto.
Qed.

(** X11.  The range that the loop receives for a name is the one of the
    last map that has the name: [peerDependencies] before
    [devDependencies] before [dependencies]. *)
Theorem merged_entry_range (packageJson : Manifest) (k v : string) :
  In (k, v) (mergedDependencies packageJson) <->
  match lastAssignedIn (peerDependencies packageJson) k with
  | Some w => Some w
  | None =>
      match lastAssignedIn (devDependencies packageJson) k with
      | Some w => Some w
      | None => lastAssignedIn (dependencies packageJson) k
      end
  end = Some v.
Proof.
  rewrite (lookup_In k v _ (mergedDependencies_NoDup packageJson)).
  now rewrite mergedDependencies_lookup.
Qed.

(** ** Answers with one candidate, or none *)

(** X12.  When the answer holds one valid version, the resolver returns
    it without a warning, whether or not it satisfies the range. *)
Theorem single_candidate_is_returned (packageName versionRange stdout v : string) :
  execSync env (npmShow packageName versionRange) = Output stdout ->
  validVersionsOf env (Text.trim stdout) = [v] ->
  getLatestVersion env packageName versionRange = (v, []).
Proof.
  intros Hexec Hone. rewrite (getLatestVersion_output _ _ _ Hexec), Hone.
  destruct (maxSatisfying [v] versionRange) as [w|] eqn:Hmax; [|reflexivity].
  apply maxSatisfying_in in Hmax as [->|[]]. reflexivity.
Qed.

(** X13.  When the answer is JSON but neither an array nor a valid
    version (a number, an object, [null], a text that is not a version),
    the resolver warns and returns [Unable to determine]. *)
Theorem invalid_answer_is_undetermined (packageName versionRange stdout : string)
  (answer : JS.value) :
  execSync env (npmShow packageName versionRange) = Output stdout ->
  JSON_parse env (Text.trim stdout) = Some answer ->
  (forall items, answer <> JS.Arr items) ->
  (forall s, answer = JS.Str s -> valid s = None) ->
  getLatestVersion env packageName versionRange =
  ("Unable to determine", ["No valid versions found for " +++ packageName]).
Proof.
  intros Hexec Hjson Harr Hstr.
  rewrite (getLatestVersion_output _ _ _ Hexec).
  assert (validVersionsOf env (Text.trim stdout) = []) as ->; [|reflexivity].
  unfold validVersionsOf, parseVersions. rewrite Hjson.
  assert (isValid answer = false) as Hinvalid.
  { destruct answer; try reflexivity. apply not_isValid_Str. now apply Hstr. }
  destruct answer; try (exfalso; eapply Harr; reflexivity);
    cbn [JS.as_array filter]; rewrite Hinvalid; reflexivity.
Qed.

(** ** The quoted text of a line *)

Lemma string_of_list_ascii_app (l1 l2 : list ascii) :
  string_of_list_ascii (l1 ++ l2) =
  string_of_list_ascii l1 +++ string_of_list_ascii l2.
Proof.
  induction l1 as [|c l1 IH]; simpl; [reflexivity|now rewrite IH].
Qed.

Lemma list_ascii_of_string_app (s1 s2 : string) :
  list_ascii_of_string (s1 +++ s2) =
  list_ascii_of_string s1 ++ list_ascii_of_string s2.
Proof.
  induction s1 as [|c s1 IH]; simpl; [reflexivity|now rewrite IH].
Qed.

Lemma close_quote_sound (l acc captured : list ascii) :
  Text.close_quote acc l = Some captured ->
  exists mid q post,
    l = mid ++ q :: post /\ Text.is_quote q = true /\
    captured = rev acc ++ mid /\ forallb plain mid = true.
Proof.
  revert acc. induction l as [|c l IH]; simpl; intros acc H; [discriminate|].
  destruct (Text.is_quote c) eqn:Hq.
  - injection H as <-. exists [], c, l. rewrite app_nil_r. auto.
  - destruct (Text.is_line_terminator c) eqn:Ht; [discriminate|].
    apply IH in H as (mid & q & post & -> & Hquote & -> & Hplain).
    exists (c :: mid), q, post. repeat split; auto.
    + simpl. now rewrite <- app_assoc.
    + simpl. unfold plain at 1. now rewrite Hq, Ht.
Qed.

Lemma quoted_aux_sound (l captured : list ascii) :
  Text.quoted_aux l = Some captured ->
  exists pre q1 d mid q2 post,
    l = pre ++ q1 :: d :: mid ++ q2 :: post /\ captured = d :: mid /\
    Text.is_quote q1 = true /\ Text.is_quote q2 = true /\
    Text.is_line_terminator d = false /\ forallb plain mid = true.
Proof.
  induction l as [|c l IH]; simpl; intros H; [discriminate|].
  assert (Text.quoted_aux l = Some captured ->
          exists pre q1 d mid q2 post,
            c :: l = pre ++ q1 :: d :: mid ++ q2 :: post /\ captured = d :: mid /\
            Text.is_quote q1 = true /\ Text.is_quote q2 = true /\
            Text.is_line_terminator d = false /\ forallb plain mid = true)
    as Hlater.
  { intros H'. apply IH in H'
      as (pre & q1 & d & mid & q2 & post & -> & Hc & H1 & H2 & Hd & Hm).
    exists (c :: pre), q1, d, mid, q2, post. auto 10. }
  destruct (Text.is_quote c) eqn:Hq; [|auto].
  destruct l as [|d l']; [discriminate|].
  destruct (Text.is_line_terminator d) eqn:Hd; [auto|].
  destruct (Text.close_quote [d] l') as [cap|] eqn:Hclose; [|auto].
  injection H as <-.
  apply close_quote_sound in Hclose as (mid & q2 & post & -> & H2 & -> & Hm).
  exists [], c, d, mid, q2, post. auto 10.
Qed.

(** X14.  A text the fallback extracts from a line is never empty (so
    [filter(Boolean)] only drops the lines without a match), has no line
    terminator, and stands in the line between two quote characters, which
    need not be the same. *)
Theorem quoted_sound (line s : string) :
  Text.quoted line = Some s ->
  s <> EmptyString /\
  forallb (fun c => negb (Text.is_line_terminator c)) (list_ascii_of_string s)
    = true /\
  exists pre q1 q2 post,
    line = pre +++ String q1 (s +++ String q2 post) /\
    Text.is_quote q1 = true /\ Text.is_quote q2 = true.
Proof.
  unfold Text.quoted.
  destruct (Text.quoted_aux (list_ascii_of_string line)) as [captured|] eqn:H;
    [|discriminate].
  intros [= <-].
  apply quoted_aux_sound in H
    as (pre & q1 & d & mid & q2 & post & Hl & -> & H1 & H2 & Hd & Hm).
  split; [discriminate|]. split.
  - rewrite list_ascii_of_string_of_list_ascii. simpl. rewrite Hd. simpl.
    clear -Hm. induction mid as [|c mid IH]; simpl in *; [reflexivity|].
    apply andb_true_iff in Hm as [Hc Hm]. unfold plain in Hc.
    apply andb_true_iff in Hc as [_ Hc]. rewrite Hc. simpl. auto.
  - exists (string_of_list_ascii pre), q1, q2, (string_of_list_ascii post).
    split; [|auto].
    rewrite <- (string_of_list_ascii_of_string line), Hl.
    rewrite string_of_list_ascii_app. simpl.
    change (d :: mid ++ q2 :: post) with ((d :: mid) ++ q2 :: post).
    rewrite string_of_list_ascii_app. reflexivity.
Qed.

Lemma close_quote_complete (mid acc : list ascii) (q : ascii) (post : list ascii) :
  forallb plain mid = true -> Text.is_quote q = true ->
  Text.close_quote acc (mid ++ q :: post) = Some (rev acc ++ mid).
Proof.
  revert acc. induction mid as [|c mid IH]; simpl; intros acc Hm Hq.
  - rewrite Hq. now rewrite app_nil_r.
  - apply andb_true_iff in Hm as [Hc Hm]. unfold plain in Hc.
    apply andb_true_iff in Hc as [Hcq Hct].
    apply negb_true_iff in Hcq, Hct. rewrite Hcq, Hct.
    rewrite (IH (c :: acc) Hm Hq). simpl. now rewrite <- app_assoc.
Qed.

(** X15.  A line that holds a quoted text with no quote before it gives
    that text back: white space, commas or brackets around it are dropped,
    and so is whatever follows the closing quote, another quoted text
    included. *)
Theorem quoted_complete (pre v post : string) (q1 q2 : ascii) :
  forallb (fun c => negb (Text.is_quote c)) (list_ascii_of_string pre) = true ->
  v <> EmptyString ->
  forallb plain (list_ascii_of_string v) = true ->
  Text.is_quote q1 = true -> Text.is_quote q2 = true ->
  Text.quoted (pre +++ String q1 (v +++ String q2 post)) = Some v.
Proof.
  intros Hpre Hv Hplain H1 H2. unfold Text.quoted.
  rewrite list_ascii_of_string_app. simpl. rewrite list_ascii_of_string_app.
  simpl.
  assert (Text.quoted_aux
            (list_ascii_of_string pre ++
             q1 :: list_ascii_of_string v ++ q2 :: list_ascii_of_string post) =
          Some (list_ascii_of_string v)) as ->.
  { induction (list_ascii_of_string pre) as [|c l IH]; simpl.
    - rewrite H1.
      destruct (list_ascii_of_string v) as [|d mid] eqn:Hlist.
      + exfalso. apply Hv. rewrite <- (string_of_list_ascii_of_string v).
        now rewrite Hlist.
      + simpl in Hplain. apply andb_true_iff in Hplain as [Hd Hmid].
        unfold plain in Hd. apply andb_true_iff in Hd as [_ Hd].
        apply negb_true_iff in Hd. simpl. rewrite Hd.
        now rewrite (close_quote_complete mid [d] q2 _ Hmid H2).
    - simpl in Hpre. apply andb_true_iff in Hpre as [Hc Hl].
      apply negb_true_iff in Hc. rewrite Hc. now apply IH. }
  simpl. now rewrite string_of_list_ascii_of_string.
Qed.

End Properties.

(** * Scenarios

    The script run on concrete manifests, lockfiles and registries, with the
    reference instance of [semver]. *)

Module Scenarios.

#[local] Existing Instance Reference.runtime.

(** *** Manifests, lockfiles and registries *)

Definition lockfile (pins : list (string * string)) : JS.value :=
  JS.Obj [("packages",
           JS.Obj (map (fun pin =>
                          ("node_modules/" +++ fst pin,
                           JS.Obj [("version", JS.Str (snd pin))]))
                       pins))].


Definition runtimeOnly (deps : StrMap) : Manifest :=
  {| dependencies := Some deps;
     devDependencies := None;
     peerDependencies := None |}.

Definition run (answers : list (string * string)) (all : bool)
  (packageJson : Manifest) (packageLock : JS.value) : Console (list TableRow) :=
  @compareVersions Reference.semver Reference.runtime (Reference.env answers) all packageJson
    packageLock.

Definition resolve (answers : list (string * string))
  (packageName versionRange : string) : Console string :=
  @getLatestVersion Reference.semver Reference.runtime (Reference.env answers) packageName
    versionRange.

Definition driftManifest : Manifest := runtimeOnly [("foo", "^1.0.0")].
Definition driftLock : JS.value := lockfile [("foo", "1.0.0")].
Definition driftRegistry : list (string * string) :=
  [(npmShow "foo" "^1.0.0", Reference.quote "1.0.0");
   (npmShow "foo" "latest", Reference.quote "2.0.0")].

Definition driftRow : Row :=
  {| rowName := "foo";
     rowType := [(cyan, "dependencies")];
     rowInstalled := [(red, "1.0.0")];
     rowInstallable := [(yellow, "1.0.0"); (italic_gray, " (^1.0.0)")];
     rowLatest := [(red, "2.0.0"); (italic_gray, " (major)")] |}.

Definition leftPadManifest : Manifest := runtimeOnly [("left-pad", "1.0.0")].
Definition leftPadLock : JS.value := lockfile [("left-pad", "1.0.0")].
Definition leftPadRegistry : list (string * string) :=
  [(npmShow "left-pad" "1.0.0", Reference.quote "1.0.0");
   (npmShow "left-pad" "latest", Reference.quote "1.0.0")].

Definition manyRegistry : list (string * string) :=
  [(npmShow "foo" "^1.0.0", Reference.array ["1.0.0"; "1.1.0"; "2.0.0"]);
   (npmShow "foo" "^3.0.0", Reference.array ["1.9.0"; "1.10.0"]);
   (npmShow "foo" "latest", Reference.quote "2.0.0");
   (npmShow "bar" "latest", "garbage");
   (npmShow "baz" "latest", "latest: '1.2.3'")].

(** The entry that comes last in dictionary order: the words of the
    specification for the fallback, taken by the letter. *)
Definition lexicallyLast (l : list string) : option string :=
  fold_left (fun best s =>
               match best with
               | None => Some s
               | Some m => if String.ltb m s then Some s else best
               end) l None.

Definition twiceManifest : Manifest :=
  {| dependencies := Some [("foo", "^1.0.0")];
     devDependencies := Some [("foo", "^2.0.0")];
     peerDependencies := None |}.

Definition twiceRegistry : list (string * string) :=
  [(npmShow "foo" "^1.0.0", Reference.array ["1.0.0"; "1.1.0"]);
   (npmShow "foo" "^2.0.0", Reference.array ["2.0.0"; "2.1.0"]);
   (npmShow "foo" "latest", Reference.quote "2.1.0")].

Definition emptyRangeManifest : Manifest := runtimeOnly [("foo", EmptyString)].

(** [constructor] is also the name of a member that every object inherits. *)
Definition inheritedNameManifest : Manifest :=
  {| dependencies := Some [("foo", "^1.0.0")];
     devDependencies := Some [("constructor", EmptyString)];
     peerDependencies := None |}.

(** The entry of a linked package has no [version]. *)
Definition linkedLock : JS.value :=
  JS.Obj [("packages",
           JS.Obj [("node_modules/foo",
                    JS.Obj [("resolved", JS.Str "packages/foo");
                            ("link", JS.Bool true)])]);
          ("dependencies",
           JS.Obj [("foo", JS.Obj [("version", JS.Str "1.0.0")])])].

Definition tagRegistry : list (string * string) :=
  [(npmShow "qux" "latest", Reference.quote "next")].

(** *** Drift: [foo] is pinned at 1.0.0, [^1.0.0] still resolves to it and
    the latest release is 2.0.0 *)

Example drift_report :
  run driftRegistry false driftManifest driftLock = ([DataRow driftRow], []).
Proof. vm_compute. reflexivity. Qed.

Lemma inclusion_rule_witness :
  exists r,
    In (DataRow r) (fst (run driftRegistry false driftManifest driftLock)) /\
    rowName r = "foo".
Proof.
  apply (@inclusion_rule Reference.semver Reference.runtime (Reference.env driftRegistry) false
           driftManifest driftLock "foo" "1.0.0").
  - vm_compute. left. reflexivity.
  - reflexivity.
  - vm_compute. discriminate.
  - vm_compute. discriminate.
  - vm_compute. discriminate.
  - right. right. vm_compute. reflexivity.
Defined.

Lemma rows_have_valid_versions_witness :
  exists installed,
    getInstalledVersion "foo" driftLock = JS.Str installed /\
    @valid Reference.semver installed <> None.
Proof.
  destruct (proj1 (@rows_have_valid_versions Reference.semver Reference.runtime
                     (Reference.env driftRegistry) false driftManifest driftLock)
                  driftRow)
    as (range & installed & _ & Hi & Hv & _).
  - vm_compute. left. reflexivity.
  - exists installed. split; [exact Hi|exact Hv].
Defined.

Lemma severity_precedence_witness :
  exists installed,
    getInstalledVersion "foo" driftLock = JS.Str installed /\
    rowInstalled driftRow = [(red, installed)] /\
    rowLatest driftRow = [(red, "2.0.0"); (italic_gray, " (major)")].
Proof.
  destruct (@severity_precedence Reference.semver Reference.runtime
              (Reference.env driftRegistry) false driftManifest driftLock driftRow)
    as (range & installed & _ & Hi & Hlatest & _).
  - vm_compute. left. reflexivity.
  - exists installed. split; [exact Hi|].
    assert (installed = "1.0.0") as -> by (vm_compute in Hi; congruence).
    destruct Hlatest as (Hcell & _ & Hlast); [vm_compute; reflexivity|].
    split; [rewrite Hcell|rewrite Hlast]; vm_compute; reflexivity.
Defined.

Lemma changed_flags_witness :
  hasInstalledChanged "1.0.0" "1.0.0" = false <->
  @valid Reference.semver "1.0.0" = @valid Reference.semver "1.0.0".
Proof.
  apply (@changed_flags Reference.semver "1.0.0" "1.0.0" "2.0.0");
    vm_compute; reflexivity.
Defined.

(** *** Nothing to report: [left-pad] at 1.0.0 everywhere *)

Lemma no_differences_report_witness :
  fst (run leftPadRegistry false leftPadManifest leftPadLock) =
  [SpanRow
     [(green, "No installable packages found. `npm ci` and `npm i` are the same.")]
     (length tableHead) "center"].
Proof.
  apply (proj2 (proj2 (@no_differences_report Reference.semver Reference.runtime
                         (Reference.env leftPadRegistry)))
               leftPadManifest leftPadLock "left-pad" "1.0.0" "1.0.0").
  - reflexivity.
  - reflexivity.
  - vm_compute. reflexivity.
  - vm_compute. reflexivity.
  - vm_compute. discriminate.
Defined.

(** C8, as stated, fails.  The pin, the resolution of the range and the
    latest release of [left-pad] all agree; with the show-all flag the
    report is not the row that says so, as the row of [left-pad] is
    pushed. *)
Lemma agreeing_package_is_listed_with_show_all :
  mergedDependencies leftPadManifest = [("left-pad", "1.0.0")] /\
  getInstalledVersion "left-pad" leftPadLock = JS.Str "1.0.0" /\
  @getInstallableVersion Reference.semver Reference.runtime
    (Reference.env leftPadRegistry) "left-pad" leftPadManifest = ("1.0.0", []) /\
  resolve leftPadRegistry "left-pad" "latest" = ("1.0.0", []) /\
  fst (run leftPadRegistry true leftPadManifest leftPadLock) <> [noDifferences] /\
  forall row,
    In row (fst (run leftPadRegistry true leftPadManifest leftPadLock)) ->
    row <> noDifferences.
Proof.
  vm_compute. repeat split; try discriminate.
  intros row [<-|[]]. discriminate.
Qed.

(** With the show-all flag the row of [left-pad] is shown, all green. *)
Example left_pad_shown_with_all :
  fst (run leftPadRegistry true leftPadManifest leftPadLock) =
  [DataRow {| rowName := "left-pad";
              rowType := [(cyan, "dependencies")];
              rowInstalled := [(green, "1.0.0")];
              rowInstallable := [(green, "1.0.0"); (italic_gray, " (1.0.0)")];
              rowLatest := [(green, "1.0.0")] |}].
Proof. vm_compute. reflexivity. Qed.

(** *** Lockfiles *)



(** The reader reads properties of its argument: it throws at [null]. *)
Example reader_throws_at_null :
  getInstalledVersion "foo" JS.null =
  JS.Throw "Cannot read properties of null (reading 'packages')".
Proof. reflexivity. Qed.

Example nested_shape_first :
  getInstalledVersion "foo"
    (JS.Obj [("packages",
              JS.Obj [("node_modules/foo", JS.Obj [("version", JS.Str "2.0.0")])]);
             ("dependencies",
              JS.Obj [("foo", JS.Obj [("version", JS.Str "1.0.0")])])])
  = JS.Str "2.0.0".
Proof. reflexivity. Qed.

(** [foo] is declared and the lockfile does not have it: no row, even with
    the show-all flag. *)
Lemma not_installed_is_skipped_witness :
  getInstalledVersion "foo" (lockfile []) = JS.Str "Not installed" /\
  @isValid Reference.semver (JS.Str "Not installed") = false /\
  (forall r, In (DataRow r) (fst (run driftRegistry true driftManifest (lockfile []))) ->
             rowName r <> "foo") /\
  (In (skippedUnable "foo")
      (snd (run driftRegistry true driftManifest (lockfile []))) \/
   In (skippedInvalid "foo")
      (snd (run driftRegistry true driftManifest (lockfile [])))).
Proof.
  destruct (@not_installed_is_skipped Reference.semver Reference.runtime
              (Reference.env driftRegistry) true driftManifest (lockfile [])
              "foo" "^1.0.0")
    as (Hinvalid & _ & Hsentinel & Hnorow & Hwarned).
  - vm_compute. left. reflexivity.
  - reflexivity.
  - reflexivity.
  - reflexivity.
  - split; [apply Hsentinel; reflexivity|].
    split; [exact Hinvalid|]. split; [exact Hnorow|exact Hwarned].
Defined.

Example not_installed_report :
  run driftRegistry true driftManifest (lockfile []) =
  ([noDifferences], ["Invalid version detected for foo. Skipping."]).
Proof. vm_compute. reflexivity. Qed.

(** *** The resolver *)

Lemma resolver_selection_witness :
  fst (resolve manyRegistry "foo" "^1.0.0") = "1.1.0" /\
  @satisfies Reference.semver "1.1.0" "^1.0.0" = true.
Proof.
  pose proof (@resolver_selection Reference.semver Reference.runtime (Reference.env manyRegistry)
                "foo" "^1.0.0"
                (Reference.array ["1.0.0"; "1.1.0"; "2.0.0"]) eq_refl) as H.
  destruct H as [_ H]; [vm_compute; discriminate|].
  change (@maxSatisfying Reference.semver
            (@validVersionsOf Reference.semver (Reference.env manyRegistry)
               (Text.trim (Reference.array ["1.0.0"; "1.1.0"; "2.0.0"])))
            "^1.0.0")
    with (Some "1.1.0") in H.
  destruct H as (Hres & _ & Hsat & _). split; [exact Hres|exact Hsat].
Defined.

(** C3, as stated, fails.  The registry answers 1.9.0 and 1.10.0 for a
    range that none of them satisfies: the resolver returns 1.10.0, the
    entry in the last position, and 1.9.0 is the one that is last in
    dictionary order. *)
Lemma fallback_is_not_lexically_last :
  @validVersionsOf Reference.semver (Reference.env manyRegistry)
    (Text.trim (Reference.array ["1.9.0"; "1.10.0"])) = ["1.9.0"; "1.10.0"] /\
  @maxSatisfying Reference.semver ["1.9.0"; "1.10.0"] "^3.0.0" = None /\
  fst (resolve manyRegistry "foo" "^3.0.0") = "1.10.0" /\
  lexicallyLast ["1.9.0"; "1.10.0"] = Some "1.9.0".
Proof. vm_compute. repeat split. Qed.

(** C4, as stated, fails.  The command succeeds and prints a text that is
    not JSON: the resolver does not return [Error fetching version]; it
    looks for quoted texts, finds none and returns [Unable to determine]. *)
Lemma unparseable_output_is_not_an_error :
  Reference.registry manyRegistry (npmShow "bar" "latest") = Output "garbage" /\
  Reference.JSON_parse (Text.trim "garbage") = None /\
  resolve manyRegistry "bar" "latest" =
    ("Unable to determine", ["No valid versions found for bar"]) /\
  fst (resolve manyRegistry "bar" "latest") <> "Error fetching version".
Proof. vm_compute. repeat split. discriminate. Qed.

Lemma resolver_returns_witness :
  resolve manyRegistry "bar" "latest" =
  ("Unable to determine", ["No valid versions found for bar"]).
Proof.
  pose proof (@resolver_returns Reference.semver Reference.runtime (Reference.env manyRegistry)
                "bar" "latest") as H.
  change (execSync (Reference.env manyRegistry) (npmShow "bar" "latest"))
    with (Output "garbage") in H.
  destruct H as (_ & Hnone & _). apply Hnone. vm_compute. reflexivity.
Defined.

(** A text that is not JSON may still yield a version. *)
Example quoted_text_is_recovered :
  Reference.JSON_parse (Text.trim "latest: '1.2.3'") = None /\
  resolve manyRegistry "baz" "latest" = ("1.2.3", []).
Proof. vm_compute. split; reflexivity. Qed.

Example unknown_package_is_an_error :
  resolve manyRegistry "qux" "latest" =
  ("Error fetching version",
   ["Error fetching version for qux: Command failed: npm show qux@latest version --json"]).
Proof. vm_compute. reflexivity. Qed.

(** *** Versions that are not in normalised form *)

(** C2, as stated, fails.  [v1.0.0] and [1.0.0] are valid and normalise to
    the same version, and the flag says that they differ. *)
Lemma changed_flags_not_normalised :
  ~ (forall installed installable : string,
       @valid Reference.semver installed <> None ->
       @valid Reference.semver installable <> None ->
       (hasInstalledChanged installed installable = false <->
        @valid Reference.semver installed = @valid Reference.semver installable)).
Proof.
  intros H.
  assert (hasInstalledChanged "v1.0.0" "1.0.0" = false) as Hflag.
  { apply H.
    - vm_compute. discriminate.
    - vm_compute. discriminate.
    - vm_compute. reflexivity. }
  vm_compute in Hflag. discriminate.
Qed.

(** The same in the report: a lockfile that pins [v1.0.0] gets a row, all
    three versions being 1.0.0. *)
Example unnormalised_pin_report :
  fst (run leftPadRegistry false leftPadManifest (lockfile [("left-pad", "v1.0.0")])) =
  [DataRow {| rowName := "left-pad";
              rowType := [(cyan, "dependencies")];
              rowInstalled := [(yellow, "v1.0.0")];
              rowInstallable := [(yellow, "1.0.0"); (italic_gray, " (1.0.0)")];
              rowLatest := [(yellow, "1.0.0"); (italic_gray, " (null)")] |}].
Proof. vm_compute. reflexivity. Qed.

(** *** A name declared in two categories *)

(** C9.  [foo] is declared with [^1.0.0] at run time and with [^2.0.0] for
    development.  It has one row, attributed to [dependencies], and its
    installable version 1.1.0 is resolved with [^1.0.0], the range of the
    first category; the range shown beside it is [^2.0.0], the range of
    the last one. *)
Theorem duplicate_name_shows_last_range :
  mergedDependencies twiceManifest = [("foo", "^2.0.0")] /\
  @getInstallableVersion Reference.semver Reference.runtime (Reference.env twiceRegistry) "foo"
    twiceManifest = resolve twiceRegistry "foo" "^1.0.0" /\
  run twiceRegistry false twiceManifest (lockfile [("foo", "1.0.0")]) =
  ([DataRow {| rowName := "foo";
               rowType := [(cyan, "dependencies")];
               rowInstalled := [(red, "1.0.0")];
               rowInstallable := [(yellow, "1.1.0"); (italic_gray, " (^2.0.0)")];
               rowLatest := [(red, "2.1.0"); (italic_gray, " (major)")] |}],
   []).
Proof. vm_compute. repeat split. Qed.

(** *** Further properties, at concrete inputs *)

Lemma type_label_matches_resolution_witness :
  dependencyTypeOf twiceManifest "foo" = "dependencies" /\
  @getInstallableVersion Reference.semver Reference.runtime
    (Reference.env twiceRegistry) "foo" twiceManifest =
  resolve twiceRegistry "foo" "^1.0.0".
Proof.
  apply (proj1 (@type_label_matches_resolution Reference.semver
                  Reference.runtime (Reference.env twiceRegistry)
                  twiceManifest "foo")).
  reflexivity.
Defined.

(** A name that only [devDependencies] and [peerDependencies] declare is
    labelled with the former. *)
Example development_before_peer :
  dependencyTypeOf {| dependencies := Some [("foo", "^1.0.0")];
                      devDependencies := Some [("bar", "^2.0.0")];
                      peerDependencies := Some [("bar", "^3.0.0")] |} "bar"
  = "devDependencies".
Proof. reflexivity. Qed.

Lemma rows_never_unknown_type_witness :
  rowType driftRow = chalk cyan "dependencies" \/
  rowType driftRow = chalk cyan "devDependencies" \/
  rowType driftRow = chalk cyan "peerDependencies".
Proof.
  apply (@rows_never_unknown_type Reference.semver Reference.runtime (Reference.env driftRegistry)
           false driftManifest driftLock driftRow).
  vm_compute. left. reflexivity.
Defined.

Lemma empty_range_is_skipped_witness :
  (forall r, In (DataRow r) (fst (run driftRegistry true emptyRangeManifest driftLock)) ->
             rowName r <> "foo") /\
  In (notFound "foo") (snd (run driftRegistry true emptyRangeManifest driftLock)).
Proof.
  apply (@empty_range_is_skipped Reference.semver Reference.runtime
           (Reference.env driftRegistry) true emptyRangeManifest driftLock
           "foo" EmptyString).
  - vm_compute. left. reflexivity.
  - reflexivity.
  - reflexivity.
  - reflexivity.
  - reflexivity.
Defined.

(** A name that the category objects inherit is another matter.  With
    [constructor] declared with an empty range for development, the read
    of [dependencies] finds the inherited member: the package is labelled
    [dependencies] and the text of that member is taken for its range. *)
Example inherited_member_taken_as_range :
  opt_get (dependencies inheritedNameManifest) "constructor" = JS.Native "Object" /\
  dependencyTypeOf inheritedNameManifest "constructor" = "dependencies" /\
  @getInstallableVersion Reference.semver Reference.runtime
    (Reference.env driftRegistry) "constructor" inheritedNameManifest =
  ("Error fetching version",
   ["Error fetching version for constructor: Command failed: "
      +++ npmShow "constructor" "function Object() { [native code] }"]).
Proof. vm_compute. repeat split. Qed.

Example empty_range_report :
  run driftRegistry true emptyRangeManifest driftLock =
  ([noDifferences],
   ["Package foo not found in package.json";
    "Invalid version detected for foo. Skipping."]).
Proof. vm_compute. reflexivity. Qed.

Lemma versionless_entry_is_skipped_witness :
  getInstalledVersion "foo" linkedLock = JS.undefined /\
  forall r, In (DataRow r) (fst (run driftRegistry true driftManifest linkedLock)) ->
            rowName r <> "foo".
Proof.
  destruct (@versionless_entry_is_skipped Reference.semver Reference.runtime
              (Reference.env driftRegistry) true driftManifest linkedLock
              "foo" "^1.0.0"
              [("resolved", JS.Str "packages/foo"); ("link", JS.Bool true)])
    as (Hundefined & Hnorow & _).
  - vm_compute. left. reflexivity.
  - reflexivity.
  - reflexivity.
  - split; [exact Hundefined|exact Hnorow].
Defined.

Lemma registry_down_witness :
  fst (run [] true twiceManifest driftLock) = [noDifferences].
Proof.
  apply (@registry_down_reports_no_differences Reference.semver Reference.runtime
           (Reference.env []) true twiceManifest driftLock).
  intros command. eexists. reflexivity.
Defined.

Lemma single_candidate_witness :
  resolve manyRegistry "foo" "latest" = ("2.0.0", []).
Proof.
  apply (@single_candidate_is_returned Reference.semver Reference.runtime
           (Reference.env manyRegistry) "foo" "latest"
           (Reference.quote "2.0.0") "2.0.0").
  - reflexivity.
  - vm_compute. reflexivity.
Defined.

Lemma invalid_answer_witness :
  resolve tagRegistry "qux" "latest" =
  ("Unable to determine", ["No valid versions found for qux"]).
Proof.
  apply (@invalid_answer_is_undetermined Reference.semver Reference.runtime
           (Reference.env tagRegistry) "qux" "latest" (Reference.quote "next")
           (JS.Str "next")).
  - reflexivity.
  - vm_compute. reflexivity.
  - discriminate.
  - intros s [= <-]. vm_compute. reflexivity.
Defined.

Lemma quoted_sound_witness :
  exists pre q1 q2 post,
    "  '1.2.3'," = pre +++ String q1 ("1.2.3" +++ String q2 post) /\
    Text.is_quote q1 = true /\ Text.is_quote q2 = true.
Proof.
  apply (quoted_sound "  '1.2.3'," "1.2.3"). vm_compute. reflexivity.
Defined.

(** The quotes need not match. *)
Lemma quoted_complete_witness :
  Text.quoted ("  " +++ String Text.single_quote
                          ("1.2.3" +++ String Text.double_quote ", '1.2.4'"))
  = Some "1.2.3".
Proof.
  apply quoted_complete.
  - vm_compute. reflexivity.
  - discriminate.
  - vm_compute. reflexivity.
  - vm_compute. reflexivity.
  - vm_compute. reflexivity.
Defined.

End Scenarios.
